(** * TrainMetricsRecorder: a shallow embedding of
      [image_classification/utils_ic/fastai_utils.py]

    The callback object is a record whose fields are the attributes of
    [self]; every method is a function from the object (and the arguments
    of the call) to a [result], which is either the updated object or the
    exception the method raises.  When a method raises, the partially
    updated object is not described: no property below looks at it.

    Numbers: a Python [int] is a [Z]; a Python [float] is the rational it
    denotes, a [Q], with exact arithmetic (rounding of the binary
    representation, infinities and NaN are outside the model). *)

From Stdlib Require Import ZArith QArith Qround String Ascii Bool List Lia.
From Stdlib Require Import DecimalString DecimalZ DecimalPos.
Import ListNotations.

Open Scope string_scope.
Open Scope list_scope.
Open Scope Z_scope.

Set Warnings "-register-all".

(** ** Exceptions and fallible computations *)

Inductive exn : Type :=
| AssertionError
| AttributeError (attr : string)
| IndexError
| TypeError
| RuntimeError (msg : string)
| ValueError (msg : string).

Inductive result (A : Type) : Type :=
| Ok (a : A)
| Raise (e : exn).

Arguments Ok {A} a.
Arguments Raise {A} e.

Definition bind {A B : Type} (m : result A) (f : A -> result B) : result B :=
  match m with
  | Ok a => f a
  | Raise e => Raise e
  end.

Notation "x <- m ;; k" := (bind m (fun x => k))
  (at level 61, m at next level, right associativity).
Notation "m ;;; k" := (bind m (fun _ => k))
  (at level 61, right associativity).

(** [[f(x) for x in l]] where [f] may raise: the elements are evaluated
    from left to right and the first exception wins. *)
Fixpoint mapM {A B : Type} (f : A -> result B) (l : list A) : result (list B) :=
  match l with
  | [] => Ok []
  | a :: l' => b <- f a ;; bs <- mapM f l' ;; Ok (b :: bs)
  end.

(** A [for] loop over [l] whose body updates a loop-carried value. *)
Fixpoint foldM {A S : Type} (body : S -> A -> result S) (l : list A) (s : S)
  : result S :=
  match l with
  | [] => Ok s
  | a :: l' => s' <- body s a ;; foldM body l' s'
  end.

(** [l[i]] for a non-negative index [i]. *)
Definition index {A : Type} (l : list A) (i : nat) : result A :=
  match nth_error l i with
  | Some a => Ok a
  | None => Raise IndexError
  end.

(** [l[-1]]. *)
Definition index_last {A : Type} (l : list A) : result A :=
  match rev l with
  | a :: _ => Ok a
  | [] => Raise IndexError
  end.

(** [enumerate(l)]. *)
Fixpoint enumerate_from {A : Type} (i : nat) (l : list A) : list (nat * A) :=
  match l with
  | [] => []
  | a :: l' => (i, a) :: enumerate_from (S i) l'
  end.

Definition enumerate {A : Type} (l : list A) : list (nat * A) :=
  enumerate_from 0 l.

(** ** Tensors

    A tensor is its device and its contents; the contents are a scalar
    (a 0-dimensional tensor) or a sequence of sub-tensors along the first
    dimension. *)

Inductive device : Type := CPU | CUDA.

Inductive tdata : Type :=
| Scalar (x : Q)
| Dim (l : list tdata).

Record Tensor : Type := mkTensor { dev : device; data : tdata }.

Fixpoint shape (t : tdata) : list nat :=
  match t with
  | Scalar _ => []
  | Dim l => length l :: match l with
                         | [] => []
                         | h :: _ => shape h
                         end
  end.

Definition device_eqb (a b : device) : bool :=
  match a, b with
  | CPU, CPU | CUDA, CUDA => true
  | _, _ => false
  end.

Definition shape_eqb (s1 s2 : list nat) : bool :=
  if list_eq_dec Nat.eq_dec s1 s2 then true else false.

(** [t.cpu()]: the same contents in host memory. *)
Definition cpu (t : Tensor) : Tensor := mkTensor CPU (data t).

(** [torch.stack(ts)]: a new leading dimension indexes the list.  It
    raises on an empty list and on tensors that differ in shape (or
    device). *)
Definition torch_stack (ts : list Tensor) : result Tensor :=
  match ts with
  | [] => Raise (RuntimeError "stack expects a non-empty TensorList")
  | t :: rest =>
      if forallb (fun u => shape_eqb (shape (data u)) (shape (data t))
                           && device_eqb (dev u) (dev t)) rest
      then Ok (mkTensor (dev t) (Dim (map data ts)))
      else Raise (RuntimeError "stack expects each tensor to be equal size")
  end.

(** ** Python values that occur as stats and metric values *)

Inductive pyval : Type :=
| VNone
| VInt (n : Z)
| VFloat (x : Q)
| VTensor (t : Tensor).

(** A metric function [fn(input, targs)] with its [__name__]; it may raise
    whatever it likes. *)
Record metric_fn : Type := mkMetric {
  m_name : string;
  m_call : Tensor -> Tensor -> result pyval
}.

(** ** String formatting *)

Definition digit_char (d : Z) : ascii :=
  ascii_of_nat (48 + Z.to_nat d).

(** The [w] low decimal digits of [n], zero padded. *)
Fixpoint digits_fixed (w : nat) (n : Z) : string :=
  match w with
  | O => ""
  | S w' => (digits_fixed w' (n / 10) ++ String (digit_char (n mod 10)) "")%string
  end.

(** [str(n)] for an [int]. *)
Definition str_int (n : Z) : string :=
  NilZero.string_of_int (Z.to_int n).

Definition Qlt_bool (x y : Q) : bool := negb (Qle_bool y x).

(** The integer nearest to the non-negative rational [a / d], ties to
    even: the rounding of the [f] presentation type. *)
Definition round_half_even (a : Z) (d : Z) : Z :=
  let k := a / d in
  let r := a mod d in
  if 2 * r <? d then k
  else if d <? 2 * r then k + 1
  else if Z.even k then k else k + 1.

(** The number of millionths [x] is rendered with, sign apart. *)
Definition millionths (x : Q) : Z :=
  round_half_even (Z.abs (Qnum x) * 1000000) (Zpos (Qden x)).

(** [f'{x:.6f}'] for a float [x]. *)
Definition format_6f (x : Q) : string :=
  let n := millionths x in
  ((if Qlt_bool x 0 then "-" else "")
     ++ str_int (n / 1000000) ++ "." ++ digits_fixed 6 (n mod 1000000))%string.

(** [f'{t:.6f}'] for a tensor: only a 0-dimensional tensor formats, as its
    item does. *)
Definition format_tensor_6f (t : Tensor) : result string :=
  match data t with
  | Scalar x => Ok (format_6f x)
  | Dim _ => Raise TypeError
  end.

(** The conditional expression of [_format_stats]:
    ['#na#' if stat is None else str(stat) if isinstance(stat, int)
     else f'{stat:.6f}']. *)
Definition format_stat (stat : pyval) : result string :=
  match stat with
  | VNone => Ok "#na#"
  | VInt n => Ok (str_int n)
  | VFloat x => Ok (format_6f x)
  | VTensor t => format_tensor_6f t
  end.


(** ** Collaborators of the callback *)

(** What the callback sees of the [Learner]: whether [learn.data] has a
    [valid_ds] attribute, and the flag [learn.recorder.silent]. *)
Record Learner : Type := mkLearner {
  data_has_valid_ds : bool;
  recorder_silent : bool
}.

(** A progress bar is the rows written to it with [write(row, table=True)]. *)
Definition PBar : Type := list (list string).

Definition pbar_write (p : PBar) (row : list string) : PBar := p ++ [row].

(** One subplot: its lines, limits, labels, tick locator and legend. *)
Record Line : Type := mkLine {
  l_x : list Z;
  l_y : list pyval;
  l_label : string
}.

Record Axes : Type := mkAxes {
  ax_lines : list Line;
  ax_xlim : option (Q * Q);
  ax_ylim : option (Q * Q);
  ax_ylabel : option string;
  ax_xlabel : option string;
  ax_integer_ticks : bool;
  ax_legend : option string
}.

Definition new_axes : Axes := mkAxes [] None None None None false None.

(** [ax.clear()]. *)
Definition ax_clear (ax : Axes) : Axes := new_axes.

(** [ax.plot(x, y, label=...)]: the two sequences must be equally long. *)
Definition ax_plot (ax : Axes) (x : list Z) (ys : list pyval) (label : string)
  : result Axes :=
  if Nat.eqb (length x) (length ys)
  then Ok (mkAxes (ax_lines ax ++ [mkLine x ys label]) (ax_xlim ax) (ax_ylim ax)
             (ax_ylabel ax) (ax_xlabel ax) (ax_integer_ticks ax) (ax_legend ax))
  else Raise (ValueError "x and y must have same first dimension").

Definition ax_set_xlim (ax : Axes) (b : Q * Q) : Axes :=
  mkAxes (ax_lines ax) (Some b) (ax_ylim ax) (ax_ylabel ax) (ax_xlabel ax)
    (ax_integer_ticks ax) (ax_legend ax).

Definition ax_set_ylim (ax : Axes) (b : Q * Q) : Axes :=
  mkAxes (ax_lines ax) (ax_xlim ax) (Some b) (ax_ylabel ax) (ax_xlabel ax)
    (ax_integer_ticks ax) (ax_legend ax).

Definition ax_set_ylabel (ax : Axes) (s : string) : Axes :=
  mkAxes (ax_lines ax) (ax_xlim ax) (ax_ylim ax) (Some s) (ax_xlabel ax)
    (ax_integer_ticks ax) (ax_legend ax).

Definition ax_set_xlabel (ax : Axes) (s : string) : Axes :=
  mkAxes (ax_lines ax) (ax_xlim ax) (ax_ylim ax) (ax_ylabel ax) (Some s)
    (ax_integer_ticks ax) (ax_legend ax).

(** [ax.xaxis.set_major_locator(MaxNLocator(integer=True))]. *)
Definition ax_set_integer_locator (ax : Axes) : Axes :=
  mkAxes (ax_lines ax) (ax_xlim ax) (ax_ylim ax) (ax_ylabel ax) (ax_xlabel ax)
    true (ax_legend ax).

Definition ax_set_legend (ax : Axes) (loc : string) : Axes :=
  mkAxes (ax_lines ax) (ax_xlim ax) (ax_ylim ax) (ax_ylabel ax) (ax_xlabel ax)
    (ax_integer_ticks ax) (Some loc).

(** [plt.subplots(n, 1, ...)]: [n] fresh subplots; no rows is an error. *)
Definition plt_subplots (n : nat) : result (list Axes) :=
  match n with
  | O => Raise (ValueError "Number of rows must be a positive integer")
  | S _ => Ok (repeat new_axes n)
  end.

(** ** The callback object

    The attributes of [self] come in groups that are created together:
    by [__init__], by [on_train_begin], by [on_epoch_begin] and by the
    first [plot].  A group that does not exist yet is [None], and reading
    one of its attributes raises [AttributeError]. *)

Record run_state : Type := mkRun {
  has_metrics : bool;
  has_val : bool;
  pbar : PBar;
  names : list string;
  metrics_names : list string;
  n_epochs : Z;
  valid_metrics : list (list pyval);
  train_metrics : list (list pyval)
}.

Record epoch_state : Type := mkEpoch {
  start_epoch : Q;
  y : list Tensor;
  out : list Tensor
}.

(** [axes] are the subplots of [self.fig]; [graphs] is what the display
    handle currently shows. *)
Record plot_state : Type := mkPlot {
  axes : list Axes;
  graphs : list Axes
}.

Record TrainMetricsRecorder : Type := mkRecorder {
  learn : Learner;
  n_batch : option Z;
  show_graph : bool;
  silent : bool;
  run : option run_state;
  epoch_st : option epoch_state;
  fig : option plot_state
}.

Definition attr {A : Type} (name : string) (group : option A) : result A :=
  match group with
  | Some a => Ok a
  | None => Raise (AttributeError name)
  end.

Definition set_learn (self : TrainMetricsRecorder) (l : Learner) :=
  mkRecorder l (n_batch self) (show_graph self) (silent self) (run self)
    (epoch_st self) (fig self).

Definition set_run (self : TrainMetricsRecorder) (r : run_state) :=
  mkRecorder (learn self) (n_batch self) (show_graph self) (silent self)
    (Some r) (epoch_st self) (fig self).

Definition set_epoch (self : TrainMetricsRecorder) (e : epoch_state) :=
  mkRecorder (learn self) (n_batch self) (show_graph self) (silent self)
    (run self) (Some e) (fig self).

Definition set_fig (self : TrainMetricsRecorder) (p : plot_state) :=
  mkRecorder (learn self) (n_batch self) (show_graph self) (silent self)
    (run self) (epoch_st self) (Some p).

Definition set_pbar (r : run_state) (p : PBar) : run_state :=
  mkRun (has_metrics r) (has_val r) p (names r) (metrics_names r) (n_epochs r)
    (valid_metrics r) (train_metrics r).

Definition set_valid_metrics (r : run_state) (v : list (list pyval)) :=
  mkRun (has_metrics r) (has_val r) (pbar r) (names r) (metrics_names r)
    (n_epochs r) v (train_metrics r).

Definition set_train_metrics (r : run_state) (t : list (list pyval)) :=
  mkRun (has_metrics r) (has_val r) (pbar r) (names r) (metrics_names r)
    (n_epochs r) (valid_metrics r) t.

(** *** [__init__] *)

(** Truth value of an optional [int]: [None] and [0] are false. *)
Definition truthy (n : option Z) : bool :=
  match n with
  | None => false
  | Some k => negb (k =? 0)
  end.

Definition py_assert (b : bool) : result unit :=
  if b then Ok tt else Raise AssertionError.

Definition __init__ (learn : Learner) (n_batch : option Z)
    (show_graph silent : bool) : result TrainMetricsRecorder :=
  (if truthy n_batch
   then py_assert (match n_batch with Some k => k >? 0 | None => false end)
   else Ok tt) ;;;
  Ok (mkRecorder learn n_batch show_graph silent None None None).

(** *** [on_train_begin] *)

(** The loop that adds the metric columns to [self.names]. *)
Definition add_metric_names (has_val : bool) (names : list string)
    (metrics_names : list string) : list string :=
  fold_left
    (fun names m =>
       let names := names ++ [("train_" ++ m)%string] in
       if has_val then names ++ [("valid_" ++ m)%string] else names)
    metrics_names names.

(** [has_metrics] is [metrics and len(metrics) > 0]: the empty list itself
    (which is false) when there is no metric function, the comparison
    otherwise.  The field holds its truth value. *)
Definition on_train_begin (self : TrainMetricsRecorder) (pbar : PBar)
    (metrics : list metric_fn) (n_epochs : Z) : TrainMetricsRecorder :=
  let has_metrics :=
    match metrics with
    | [] => false
    | _ => Z.of_nat (length metrics) >? 0
    end in
  let has_val := data_has_valid_ds (learn self) in
  let self := set_learn self (mkLearner (data_has_valid_ds (learn self)) true) in
  let names := ["epoch"; "train_loss"] in
  let names := if has_val then names ++ ["valid_loss"] else names in
  let metrics_names := map m_name metrics in
  let names := add_metric_names has_val names metrics_names in
  let names := names ++ ["time"] in
  let pbar := if negb (silent self) then pbar_write pbar names else pbar in
  set_run self (mkRun has_metrics has_val pbar names metrics_names n_epochs [] []).

(** *** [on_epoch_begin]; [now] is the reading of the clock. *)

Definition on_epoch_begin (self : TrainMetricsRecorder) (now : Q)
  : TrainMetricsRecorder :=
  set_epoch self (mkEpoch now [] []).

(** *** [on_batch_end] *)

Definition on_batch_end (self : TrainMetricsRecorder) (train : bool)
    (num_batch : Z) (last_target last_output : Tensor)
  : result TrainMetricsRecorder :=
  if train
     && match n_batch self with
        | None => true
        | Some k => k >? num_batch
        end
  then
    r <- attr "has_metrics" (run self) ;;
    if has_metrics r
    then
      e <- attr "y" (epoch_st self) ;;
      Ok (set_epoch self
            (mkEpoch (start_epoch e) (y e ++ [cpu last_target])
               (out e ++ [cpu last_output])))
    else Ok self
  else Ok self.

(** *** [plot] *)

(** The built-in [min] and [max] over the items of a sequence: the first
    smallest (largest) item; an empty sequence is an error. *)
Definition py_min (l : list Q) : result Q :=
  match l with
  | [] => Raise (ValueError "min() arg is an empty sequence")
  | x :: l' => Ok (fold_left (fun best v => if Qlt_bool v best then v else best) l' x)
  end.

Definition py_max (l : list Q) : result Q :=
  match l with
  | [] => Raise (ValueError "max() arg is an empty sequence")
  | x :: l' => Ok (fold_left (fun best v => if Qlt_bool best v then v else best) l' x)
  end.

(** [min(a, b, c)] and [max(a, b, c)] with three arguments. *)
Definition py_min3 (a b c : Q) : Q :=
  fold_left (fun best v => if Qlt_bool v best then v else best) [b; c] a.

Definition py_max3 (a b c : Q) : Q :=
  fold_left (fun best v => if Qlt_bool best v then v else best) [b; c] a.

(** The only item of a one-element tensor. *)
Fixpoint item (t : tdata) : result Q :=
  match t with
  | Scalar x => Ok x
  | Dim [u] => item u
  | Dim _ =>
      Raise (ValueError "only one element tensors can be converted to Python scalars")
  end.

Definition scalar_of (v : pyval) : result Q :=
  match v with
  | VNone => Raise TypeError
  | VInt n => Ok (inject_Z n)
  | VFloat x => Ok x
  | VTensor t => item (data t)
  end.

(** [Tensor(l)] for a list of scalars: the 1-dimensional tensor of their
    values. *)
Definition Tensor_of_list (l : list pyval) : result (list Q) :=
  mapM scalar_of l.

(** [[i for i in range(n)]]. *)
Definition range (n : nat) : list Z := map Z.of_nat (seq 0 n).

(** The body of the loop [for i, ax in enumerate(self.axes)].  The bounds
    are computed here in exact arithmetic; the code rounds them (single
    precision inside [Tensor], double precision outside). *)
Definition plot_panel (r : run_state) (i : nat) (ax : Axes) : result Axes :=
  let ax := ax_clear ax in
  tr_m <- mapM (fun met => index met i) (train_metrics r) ;;
  let x_axis := range (length tr_m) in
  ax <- ax_plot ax x_axis tr_m "Train" ;;
  p <- (if (0 <? length (valid_metrics r))%nat
        then
          vl_m <- mapM (fun met => index met i) (valid_metrics r) ;;
          ax <- ax_plot ax x_axis vl_m "Validation" ;;
          Ok (ax, vl_m)
        else Ok (ax, [])) ;;
  let '(ax, vl_m) := p in
  let x_bounds := ((-0.05)%Q, (inject_Z (n_epochs r) - 0.95)%Q) in
  t_tr <- Tensor_of_list tr_m ;;
  min_tr <- py_min t_tr ;;
  t_vl <- Tensor_of_list vl_m ;;
  min_vl <- py_min t_vl ;;
  let y_lo := (py_min3 (-0.05) min_tr min_vl - 0.05)%Q in
  t_tr <- Tensor_of_list tr_m ;;
  max_tr <- py_max t_tr ;;
  t_vl <- Tensor_of_list vl_m ;;
  max_vl <- py_max t_vl ;;
  let y_hi := (py_max3 1.05 max_tr max_vl + 0.05)%Q in
  let y_bounds := (y_lo, y_hi) in
  let ax := ax_set_xlim ax x_bounds in
  let ax := ax_set_ylim ax y_bounds in
  name <- index (metrics_names r) i ;;
  let ax := ax_set_ylabel ax name in
  let ax := ax_set_xlabel ax "Epochs" in
  let ax := ax_set_integer_locator ax in
  let ax := ax_set_legend ax "upper right" in
  Ok ax.

Definition no_records : exn := ValueError "No records to plot.".

Definition plot (self : TrainMetricsRecorder) : result TrainMetricsRecorder :=
  r <- attr "train_metrics" (run self) ;;
  if Nat.eqb (length (train_metrics r)) 0
  then Raise no_records
  else
    (if (0 <? length (valid_metrics r))%nat
     then
       t0 <- index (train_metrics r) 0 ;;
       v0 <- index (valid_metrics r) 0 ;;
       py_assert (Nat.eqb (length t0) (length v0))
     else Ok tt) ;;;
    p <- match fig self with
         | Some p => Ok p
         | None =>
             t0 <- index (train_metrics r) 0 ;;
             axs <- plt_subplots (length t0) ;;
             Ok (mkPlot axs axs)
         end ;;
    axs <- mapM (fun ia => plot_panel r (fst ia) (snd ia)) (enumerate (axes p)) ;;
    Ok (set_fig self (mkPlot axs axs)).

(** *** [last_train_metrics], [last_valid_metrics] *)

Definition last_train_metrics (self : TrainMetricsRecorder)
  : result (list pyval) :=
  r <- attr "train_metrics" (run self) ;;
  index_last (train_metrics r).

Definition last_valid_metrics (self : TrainMetricsRecorder)
  : result (list pyval) :=
  r <- attr "valid_metrics" (run self) ;;
  index_last (valid_metrics r).

Section Callbacks.

(** [fastprogress.format_time], which renders a number of seconds. *)
Variable format_time : Q -> string.

(** *** [_format_stats]; [now] is the reading of the clock. *)

Definition _format_stats (self : TrainMetricsRecorder) (stats : list pyval)
    (now : Q) : result TrainMetricsRecorder :=
  r <- attr "names" (run self) ;;
  str_stats <- mapM (fun ns => format_stat (snd ns)) (combine (names r) stats) ;;
  e <- attr "start_epoch" (epoch_st self) ;;
  let str_stats := str_stats ++ [format_time (now - start_epoch e)%Q] in
  Ok (set_run self (set_pbar r (pbar_write (pbar r) str_stats))).

(** *** [on_epoch_end] *)

(** [[m_fn(torch.stack(self.out), torch.stack(self.y)) for m_fn in metrics]]. *)
Definition eval_train_metrics (self : TrainMetricsRecorder)
    (metrics : list metric_fn) : result (list pyval) :=
  mapM (fun m_fn =>
          e <- attr "out" (epoch_st self) ;;
          outs <- torch_stack (out e) ;;
          targs <- torch_stack (y e) ;;
          m_call m_fn outs targs)
       metrics.

(** The loop [for i in range(len(metrics))] that extends [stats]. *)
Definition add_metric_stats (has_val : bool) (tr_lm vl_lm : list pyval)
    (n : nat) (stats : list pyval) : result (list pyval) :=
  foldM (fun stats i =>
           a <- index tr_lm i ;;
           let stats := stats ++ [a] in
           if has_val
           then b <- index vl_lm i ;; Ok (stats ++ [b])
           else Ok stats)
        (seq 0 n) stats.

Definition on_epoch_end (self : TrainMetricsRecorder) (epoch : Z)
    (smooth_loss : Tensor) (metrics : list metric_fn)
    (last_metrics : list pyval) (now : Q) : result TrainMetricsRecorder :=
  let stats := [VInt epoch; VTensor smooth_loss] in
  r <- attr "has_val" (run self) ;;
  stats <- (if has_val r
            then lm0 <- index last_metrics 0 ;; Ok (stats ++ [lm0])
            else Ok stats) ;;
  p <- (if has_metrics r
        then
          tr_lm <- eval_train_metrics self metrics ;;
          let r := set_train_metrics r (train_metrics r ++ [tr_lm]) in
          let vl_lm := tl last_metrics in
          let r := if has_val r
                   then set_valid_metrics r (valid_metrics r ++ [vl_lm])
                   else r in
          stats <- add_metric_stats (has_val r) tr_lm vl_lm (length metrics) stats ;;
          Ok (set_run self r, stats)
        else Ok (self, stats)) ;;
  let '(self, stats) := p in
  if negb (silent self)
  then
    self <- _format_stats self stats now ;;
    r <- attr "train_metrics" (run self) ;;
    if show_graph self && (0 <? length (train_metrics r))%nat
    then plot self
    else Ok self
  else Ok self.

(** ** Runs: the calls the training loop makes after [on_train_begin] *)

Inductive call : Type :=
| OnEpochBegin (now : Q)
| OnBatchEnd (train : bool) (num_batch : Z) (last_target last_output : Tensor)
| OnEpochEnd (epoch : Z) (smooth_loss : Tensor) (metrics : list metric_fn)
    (last_metrics : list pyval) (now : Q)
| Plot.

Definition do_call (self : TrainMetricsRecorder) (c : call)
  : result TrainMetricsRecorder :=
  match c with
  | OnEpochBegin now => Ok (on_epoch_begin self now)
  | OnBatchEnd train num_batch last_target last_output =>
      on_batch_end self train num_batch last_target last_output
  | OnEpochEnd epoch smooth_loss metrics last_metrics now =>
      on_epoch_end self epoch smooth_loss metrics last_metrics now
  | Plot => plot self
  end.

Definition do_calls (self : TrainMetricsRecorder) (cs : list call)
  : result TrainMetricsRecorder :=
  foldM do_call cs self.

(** How many of the calls are [on_epoch_end]. *)
Definition epochs_ended (cs : list call) : nat :=
  length (filter (fun c => match c with OnEpochEnd _ _ _ _ _ => true | _ => false end) cs).

End Callbacks.

(** The batches of one phase of an epoch, numbered from [start]. *)
Fixpoint on_batches (self : TrainMetricsRecorder) (train : bool) (start : Z)
    (batches : list (Tensor * Tensor)) : result TrainMetricsRecorder :=
  match batches with
  | [] => Ok self
  | (last_target, last_output) :: rest =>
      self <- on_batch_end self train start last_target last_output ;;
      on_batches self train (start + 1) rest
  end.

(** ** Quantities the specification speaks of *)

(** The length the specification gives the per-epoch buffers after [n]
    batches of one phase. *)
Definition claimed_buffer_length (has_metrics train : bool) (cap : option Z)
    (n : nat) : Z :=
  if has_metrics && train
  then match cap with
       | Some k => Z.min (Z.of_nat n) k
       | None => Z.of_nat n
       end
  else 0.

(** The number of batches with indices [s .. s+n-1] that lie below the
    cap. *)
Definition taken (has_metrics train : bool) (cap : option Z) (s : Z) (n : nat)
  : Z :=
  if has_metrics && train
  then match cap with
       | Some k => Z.max 0 (Z.min (Z.of_nat n) (k - s))
       | None => Z.of_nat n
       end
  else 0.

(** The cap of an object that [__init__] built is never negative. *)
Definition cap_ok (self : TrainMetricsRecorder) : Prop :=
  match n_batch self with
  | Some k => 0 <= k
  | None => True
  end.

(** The columns of one metric in the header, as the specification lists
    them. *)
Definition metric_columns (has_val : bool) (m : string) : list string :=
  ("train_" ++ m)%string :: (if has_val then [("valid_" ++ m)%string] else []).

(** The header the specification describes. *)
Definition claimed_header (has_val : bool) (metrics_names : list string)
  : list string :=
  ["epoch"; "train_loss"] ++ (if has_val then ["valid_loss"] else [])
    ++ flat_map (metric_columns has_val) metrics_names ++ ["time"].


(** ** Sample data for concrete runs *)

(** Durations under an hour, as minutes and seconds. *)
Definition sample_format_time (t : Q) : string :=
  let s := Qfloor t in
  (digits_fixed 2 ((s / 60) mod 60) ++ ":" ++ digits_fixed 2 (s mod 60))%string.

Fixpoint flatten (t : tdata) : list Q :=
  match t with
  | Scalar x => [x]
  | Dim l => flat_map flatten l
  end.

(** A metric in the [fn(input, targs)] form: the share of positions at
    which the two tensors agree. *)
Definition match_rate : metric_fn :=
  mkMetric "match_rate"
    (fun input targs =>
       let xs := flatten (data input) in
       let ts := flatten (data targs) in
       if Nat.eqb (length xs) (length ts) && negb (Nat.eqb (length xs) 0)
       then
         let hits := filter (fun p => Qeq_bool (fst p) (snd p)) (combine xs ts) in
         Ok (VFloat (Z.of_nat (length hits) # Pos.of_nat (length xs)))
       else Raise (RuntimeError "shape mismatch")).

Definition sample_learner : Learner := mkLearner true false.
Definition sample_learner_no_val : Learner := mkLearner false false.

Definition labels_a : Tensor := mkTensor CUDA (Dim [Scalar 0; Scalar 1]).
Definition labels_b : Tensor := mkTensor CUDA (Dim [Scalar 1; Scalar 1]).
Definition preds_a : Tensor := mkTensor CUDA (Dim [Scalar 0; Scalar 1]).
Definition preds_b : Tensor := mkTensor CUDA (Dim [Scalar 0; Scalar 1]).
Definition loss_a : Tensor := mkTensor CPU (Scalar 0.693).

Definition five_batches : list (Tensor * Tensor) :=
  [(labels_a, preds_a); (labels_b, preds_b); (labels_a, preds_b);
   (labels_b, preds_a); (labels_a, preds_a)].

(** ** Relations between the object before and after a call *)

(** The attributes a call does not touch, seen as a relation between the
    object before and after. *)
Definition same_config (self self' : TrainMetricsRecorder) : Prop :=
  learn self' = learn self /\ n_batch self' = n_batch self
  /\ show_graph self' = show_graph self /\ silent self' = silent self.

(** The run attributes other than the progress bar. *)
Definition same_history (r r' : run_state) : Prop :=
  has_metrics r' = has_metrics r /\ has_val r' = has_val r
  /\ names r' = names r /\ metrics_names r' = metrics_names r
  /\ n_epochs r' = n_epochs r
  /\ valid_metrics r' = valid_metrics r /\ train_metrics r' = train_metrics r.

(** How one [on_epoch_end] extends the two history lists. *)
Definition history_step (self : TrainMetricsRecorder) (r r' : run_state)
    (metrics : list metric_fn) (last_metrics : list pyval) : Prop :=
  has_metrics r' = has_metrics r /\ has_val r' = has_val r
  /\ if has_metrics r
     then exists tr_lm,
         eval_train_metrics self metrics = Ok tr_lm
         /\ train_metrics r' = train_metrics r ++ [tr_lm]
         /\ valid_metrics r'
            = if has_val r
              then valid_metrics r ++ [tl last_metrics]
              else valid_metrics r
     else train_metrics r' = train_metrics r
          /\ valid_metrics r' = valid_metrics r.

(** ** Sample runs *)

(** The object [__init__] returns for an accepted cap. *)
Definition fresh_recorder (l : Learner) (cap : option Z) (show_graph silent : bool)
  : TrainMetricsRecorder :=
  mkRecorder l cap show_graph silent None None None.

(** One epoch of one training batch, with no metric function configured. *)
Definition epoch_without_metrics : list call :=
  [OnEpochBegin 0; OnBatchEnd true 0 labels_a preds_a;
   OnEpochEnd 0 loss_a [] [VFloat 0.5] 1].

(** One epoch over [five_batches] followed by one validation batch, with
    [match_rate] as the metric. *)
Definition epoch_with_metric (epoch : Z) : list call :=
  [OnEpochBegin 0;
   OnBatchEnd true 0 labels_a preds_a; OnBatchEnd true 1 labels_b preds_b;
   OnBatchEnd true 2 labels_a preds_b; OnBatchEnd true 3 labels_b preds_a;
   OnBatchEnd true 4 labels_a preds_a;
   OnBatchEnd false 0 labels_b preds_b;
   OnEpochEnd epoch loss_a [match_rate] [VFloat 0.61; VFloat 0.5] 75].

(** ** Well-formed plot state *)

(** A figure, once created, has at least one subplot ([plt.subplots]
    refuses to make none). *)
Definition fig_ok (self : TrainMetricsRecorder) : Prop :=
  match fig self with
  | Some p => axes p <> []
  | None => True
  end.

Definition min_of_empty : exn := ValueError "min() arg is an empty sequence".

(** ** The series a panel shows *)

(** The values of metric [i] along a history, as [Tensor(...)] reads them. *)
Definition series (hist : list (list pyval)) (i : nat) : result (list Q) :=
  m <- mapM (fun met => index met i) hist ;; Tensor_of_list m.

Definition is_min (m : Q) (l : list Q) : Prop :=
  In m l /\ forall x, In x l -> (m <= x)%Q.

Definition is_max (m : Q) (l : list Q) : Prop :=
  In m l /\ forall x, In x l -> (x <= m)%Q.

(** One epoch of two training batches in a run without a validation
    split: the training loop passes no validation results. *)
Definition epoch_no_validation : list call :=
  [OnEpochBegin 0;
   OnBatchEnd true 0 labels_a preds_a; OnBatchEnd true 1 labels_b preds_b;
   OnEpochEnd 0 loss_a [match_rate] [] 75].

(** ** Sample states *)

(** The state a run leaves, or the state it started from if it raised. *)
Definition after_calls (self : TrainMetricsRecorder) (cs : list call)
  : TrainMetricsRecorder :=
  match do_calls sample_format_time self cs with
  | Ok s => s
  | Raise _ => self
  end.

Definition run_of (self : TrainMetricsRecorder) : run_state :=
  match run self with
  | Some r => r
  | None => mkRun false false [] [] [] 0 [] []
  end.

(** A callback with a cap of two batches, at the start of a run with one
    metric and a validation split. *)
Definition sample_state : TrainMetricsRecorder :=
  Eval vm_compute in
    on_train_begin (fresh_recorder sample_learner (Some 2) false false)
      [] [match_rate] 1.

Definition sample_run_state : run_state :=
  Eval vm_compute in run_of sample_state.

(** The buffers at the end of the first epoch, before [on_epoch_end]. *)
Definition sample_epoch_state : epoch_state :=
  mkEpoch 0 [cpu labels_a; cpu labels_b] [cpu preds_a; cpu preds_b].

Definition sample_outs : Tensor :=
  mkTensor CPU (Dim [data preds_a; data preds_b]).

Definition sample_targs : Tensor :=
  mkTensor CPU (Dim [data labels_a; data labels_b]).

Definition state_after_one_epoch : TrainMetricsRecorder :=
  Eval vm_compute in after_calls sample_state (epoch_with_metric 0).

Definition run_after_one_epoch : run_state :=
  Eval vm_compute in run_of state_after_one_epoch.

(** The same callback in a run without a validation split. *)
Definition sample_state_no_val : TrainMetricsRecorder :=
  Eval vm_compute in
    on_train_begin (fresh_recorder sample_learner_no_val None false false)
      [] [match_rate] 1.

Definition state_after_epoch_no_val : TrainMetricsRecorder :=
  Eval vm_compute in after_calls sample_state_no_val epoch_no_validation.

Definition run_after_epoch_no_val : run_state :=
  Eval vm_compute in run_of state_after_epoch_no_val.


(** ** Shapes used by the further properties *)

(** The stats that the loop of [on_epoch_end] adds for the metrics: the
    training value and, with a validation split, the validation value of
    each metric in turn. *)
Definition metric_stats (has_val : bool) (tr_lm vl_lm : list pyval)
  : list pyval :=
  if has_val
  then flat_map (fun p => [fst p; snd p]) (combine tr_lm vl_lm)
  else tr_lm.

(** The header is the one [on_train_begin] builds from the metric names,
    and metrics count as configured exactly when there is a name. *)
Definition header_ok (r : run_state) : Prop :=
  names r = claimed_header (has_val r) (metrics_names r)
  /\ has_metrics r = match metrics_names r with [] => false | _ => true end.

Definition is_plot (c : call) : bool :=
  match c with
  | Plot => true
  | _ => false
  end.

(** The batches that count for the training metrics of an epoch: all of
    them without a cap, the first [k] under a cap [k]. *)
Definition used_batches (cap : option Z) (batches : list (Tensor * Tensor))
  : list (Tensor * Tensor) :=
  match cap with
  | None => batches
  | Some k => firstn (Z.to_nat k) batches
  end.

Definition on_host (t : Tensor) : Prop := dev t = CPU.

(** ** More sample runs *)

(** The share of positions at which the two tensors differ. *)
Definition mismatch_rate : metric_fn :=
  mkMetric "mismatch_rate"
    (fun input targs =>
       let xs := flatten (data input) in
       let ts := flatten (data targs) in
       if Nat.eqb (length xs) (length ts) && negb (Nat.eqb (length xs) 0)
       then
         let misses :=
           filter (fun p => negb (Qeq_bool (fst p) (snd p))) (combine xs ts) in
         Ok (VFloat (Z.of_nat (length misses) # Pos.of_nat (length xs)))
       else Raise (RuntimeError "shape mismatch")).

(** The first epoch of [epoch_with_metric] up to the end of its batches. *)
Definition state_before_epoch_end : TrainMetricsRecorder :=
  set_epoch sample_state sample_epoch_state.

Definition state_after_plot : TrainMetricsRecorder :=
  Eval vm_compute in after_calls state_after_one_epoch [Plot].

(** A silent callback with [show_graph] set, after the same epoch. *)
Definition quiet_state_after_one_epoch : TrainMetricsRecorder :=
  Eval vm_compute in
    after_calls
      (on_train_begin (fresh_recorder sample_learner (Some 2) true true)
         [] [match_rate] 1)
      (epoch_with_metric 0).

(** One epoch with two metrics. *)
Definition epoch_with_two_metrics : list call :=
  [OnEpochBegin 0;
   OnBatchEnd true 0 labels_a preds_a; OnBatchEnd true 1 labels_b preds_b;
   OnBatchEnd false 0 labels_b preds_b;
   OnEpochEnd 0 loss_a [match_rate; mismatch_rate]
     [VFloat 0.61; VFloat 0.5; VFloat 0.5] 75].

(** A first run with two metrics, drawn once, and then a second run of the
    same callback with one metric: the figure of the first run is still
    there. *)
Definition state_with_old_figure : TrainMetricsRecorder :=
  Eval vm_compute in
    after_calls
      (on_train_begin
         (after_calls
            (on_train_begin (fresh_recorder sample_learner None false false)
               [] [match_rate; mismatch_rate] 1)
            (epoch_with_two_metrics ++ [Plot]))
         [] [match_rate] 1)
      (epoch_with_metric 0).

Definition run_with_old_figure : run_state :=
  Eval vm_compute in run_of state_with_old_figure.

Definition old_figure : plot_state :=
  Eval vm_compute in
    match fig state_with_old_figure with
    | Some p => p
    | None => mkPlot [] []
    end.

(** ** Reading digits back *)




(** A metric function that hands back the tensor of outputs it is given. *)
Definition outputs_seen : metric_fn :=
  mkMetric "outputs_seen" (fun input targs => Ok (VTensor input)).

(** The object [__init__] returns for a cap of two batches. *)
Definition new_callback : TrainMetricsRecorder :=
  fresh_recorder sample_learner (Some 2) false false.

(** The calls that are [on_batch_end]. *)
Definition is_batch_end (c : call) : bool :=
  match c with
  | OnBatchEnd _ _ _ _ => true
  | _ => false
  end.

(** * Properties *)

(** ** Construction *)

Lemma init_negative_cap (learn : Learner) (k : Z) (show_graph silent : bool) :
  k < 0 -> __init__ learn (Some k) show_graph silent = Raise AssertionError.
Proof.
  intros Hk. unfold __init__, truthy.
  destruct (Z.eqb_spec k 0) as [E | _]; [lia |].
  simpl. destruct (Z.gtb_spec k 0); [lia | reflexivity].
Qed.

Lemma init_positive_cap (learn : Learner) (k : Z) (show_graph silent : bool) :
  0 < k ->
  __init__ learn (Some k) show_graph silent
  = Ok (mkRecorder learn (Some k) show_graph silent None None None).
Proof.
  intros Hk. unfold __init__, truthy.
  destruct (Z.eqb_spec k 0) as [E | _]; [lia |].
  simpl. destruct (Z.gtb_spec k 0); [reflexivity | lia].
Qed.

Lemma init_no_cap (learn : Learner) (show_graph silent : bool) :
  __init__ learn None show_graph silent
  = Ok (mkRecorder learn None show_graph silent None None None).
Proof. reflexivity. Qed.

(** C4, at the input where the code departs from it: a batch cap of [0]
    is not rejected.  The guard [if n_batch:] is false for [0] as it is for
    [None], so [assert n_batch > 0] is not reached and the object is built
    with [n_batch = 0]. *)
Theorem init_zero_cap_accepted (learn : Learner) (show_graph silent : bool) :
  __init__ learn (Some 0) show_graph silent
  = Ok (mkRecorder learn (Some 0) show_graph silent None None None).
Proof. reflexivity. Qed.

(** Whatever [__init__] accepts as a cap is not negative. *)
Lemma init_cap_nonneg (learn : Learner) (nb : option Z) (sg sl : bool)
    (self : TrainMetricsRecorder) :
  __init__ learn nb sg sl = Ok self ->
  n_batch self = nb /\ run self = None /\ epoch_st self = None /\ fig self = None
  /\ match nb with Some k => 0 <= k | None => True end.
Proof.
  destruct nb as [k |].
  - destruct (Z.lt_trichotomy k 0) as [Hn | [Hz | Hp]].
    + rewrite init_negative_cap by assumption. discriminate.
    + subst k. cbn. intros [= <-]. simpl. repeat split. lia.
    + rewrite init_positive_cap by assumption.
      intros [= <-]. simpl. repeat split. lia.
  - rewrite init_no_cap. intros [= <-]. simpl. repeat split.
Qed.

(** ** Batch accumulation *)

Lemma on_batch_end_step (self : TrainMetricsRecorder) (r : run_state)
    (e : epoch_state) (train : bool) (s : Z) (t o : Tensor) :
  run self = Some r -> epoch_st self = Some e ->
  exists self' e',
    on_batch_end self train s t o = Ok self'
    /\ run self' = Some r /\ n_batch self' = n_batch self
    /\ epoch_st self' = Some e'
    /\ Z.of_nat (length (y e'))
       = Z.of_nat (length (y e)) + taken (has_metrics r) train (n_batch self) s 1
    /\ Z.of_nat (length (out e'))
       = Z.of_nat (length (out e)) + taken (has_metrics r) train (n_batch self) s 1.
Proof.
  intros Hr He. unfold on_batch_end, taken. rewrite Hr, He. simpl.
  destruct train; simpl.
  - destruct (n_batch self) as [k |] eqn:Hk; simpl.
    + destruct (Z.gtb_spec k s) as [Hlt | Hge]; simpl.
      * destruct (has_metrics r); simpl.
        -- eexists _, _. repeat split; simpl; try eassumption; try reflexivity;
             rewrite length_app; simpl; lia.
        -- exists self, e. rewrite Hk. repeat split; try assumption; lia.
      * exists self, e. rewrite Hk. repeat split; try assumption;
          destruct (has_metrics r); simpl; lia.
    + destruct (has_metrics r); simpl.
      * eexists _, _. repeat split; simpl; try eassumption; try reflexivity;
          rewrite length_app; simpl; lia.
      * exists self, e. rewrite Hk. repeat split; try assumption; lia.
  - exists self, e. repeat split; try assumption;
      rewrite andb_false_r; lia.
Qed.

Lemma taken_cons (hm train : bool) (cap : option Z) (s : Z) (n : nat) :
  taken hm train cap s (S n) = taken hm train cap s 1 + taken hm train cap (s + 1) n.
Proof.
  unfold taken. destruct (hm && train); [| reflexivity].
  destruct cap as [k |]; lia.
Qed.

Lemma on_batches_lengths (train : bool) (batches : list (Tensor * Tensor)) :
  forall (self : TrainMetricsRecorder) (r : run_state) (e : epoch_state) (s : Z),
    run self = Some r -> epoch_st self = Some e ->
    exists self' e',
      on_batches self train s batches = Ok self'
      /\ run self' = Some r /\ n_batch self' = n_batch self
      /\ epoch_st self' = Some e'
      /\ Z.of_nat (length (y e'))
         = Z.of_nat (length (y e))
           + taken (has_metrics r) train (n_batch self) s (length batches)
      /\ Z.of_nat (length (out e'))
         = Z.of_nat (length (out e))
           + taken (has_metrics r) train (n_batch self) s (length batches).
Proof.
  induction batches as [| [t o] rest IH]; intros self r e s Hr He.
  - exists self, e. simpl. repeat split; try assumption;
      unfold taken; destruct (has_metrics r && train); try destruct (n_batch self);
      simpl; lia.
  - destruct (on_batch_end_step self r e train s t o Hr He)
      as (self1 & e1 & Hstep & Hr1 & Hn1 & He1 & Hy1 & Ho1).
    destruct (IH self1 r e1 (s + 1) Hr1 He1)
      as (self2 & e2 & Hrest & Hr2 & Hn2 & He2 & Hy2 & Ho2).
    exists self2, e2. simpl. rewrite Hstep. simpl. rewrite Hrest.
    rewrite Hn1 in *. simpl length. rewrite taken_cons.
    repeat split; try assumption; try congruence; lia.
Qed.

Lemma taken_from_zero (hm train : bool) (cap : option Z) (n : nat) :
  match cap with Some k => 0 <= k | None => True end ->
  taken hm train cap 0 n = claimed_buffer_length hm train cap n.
Proof.
  unfold taken, claimed_buffer_length. destruct (hm && train); [| reflexivity].
  destruct cap as [k |]; [| reflexivity]. intros Hk. lia.
Qed.

Lemma taken_nonneg (hm train : bool) (cap : option Z) (s : Z) (n : nat) :
  0 <= taken hm train cap s n.
Proof. unfold taken. destruct (hm && train), cap; lia. Qed.

(** What the buffers hold: the host copies of the batches below the cap,
    in the order of the calls. *)
Lemma on_batches_contents (train : bool) (batches : list (Tensor * Tensor)) :
  forall (self : TrainMetricsRecorder) (r : run_state) (e : epoch_state) (s : Z),
    run self = Some r -> epoch_st self = Some e ->
    exists self' e',
      on_batches self train s batches = Ok self'
      /\ epoch_st self' = Some e'
      /\ y e' = y e ++ map (fun b => cpu (fst b))
                         (firstn (Z.to_nat (taken (has_metrics r) train
                                              (n_batch self) s (length batches)))
                            batches)
      /\ out e' = out e ++ map (fun b => cpu (snd b))
                             (firstn (Z.to_nat (taken (has_metrics r) train
                                                  (n_batch self) s (length batches)))
                                batches).
Proof.
  induction batches as [| [t o] rest IH]; intros self r e s Hr He.
  - exists self, e. simpl. rewrite firstn_nil. simpl. rewrite !app_nil_r.
    repeat split; assumption.
  - simpl on_batches. simpl length. rewrite taken_cons.
    pose proof (taken_nonneg (has_metrics r) train (n_batch self) (s + 1)
                  (length rest)) as Hpos.
    unfold on_batch_end. rewrite Hr, He. cbn [attr bind].
    assert (Hone : taken (has_metrics r) train (n_batch self) s 1
                   = if train
                        && match n_batch self with
                           | None => true
                           | Some k => k >? s
                           end
                        && has_metrics r
                     then 1 else 0).
    { unfold taken. destruct (has_metrics r), train; simpl; try reflexivity;
        destruct (n_batch self) as [k |]; try reflexivity;
        destruct (Z.gtb_spec k s); simpl; lia. }
    rewrite Hone.
    destruct (train && match n_batch self with
                       | None => true
                       | Some k => k >? s
                       end) eqn:Hcond; cbn [andb].
    + destruct (has_metrics r) eqn:Hm; cbn [bind].
      * destruct (IH (set_epoch self
                        (mkEpoch (start_epoch e) (y e ++ [cpu t]) (out e ++ [cpu o])))
                    r _ (s + 1) Hr eq_refl) as (self' & e' & -> & He' & Hy & Ho).
        exists self', e'. split; [reflexivity |]. split; [exact He' |].
        cbn [n_batch set_epoch y out] in Hy, Ho. rewrite Hm in Hy, Ho.
        replace (Z.to_nat (1 + taken true train (n_batch self) (s + 1) (length rest)))
          with (S (Z.to_nat (taken true train (n_batch self) (s + 1) (length rest))))
          by lia.
        rewrite Hy, Ho. simpl. rewrite <- !app_assoc. split; reflexivity.
      * destruct (IH self r e (s + 1) Hr He) as (self' & e' & -> & He' & Hy & Ho).
        exists self', e'. rewrite Hm in Hy, Ho.
        split; [reflexivity |]. split; [exact He' |].
        assert (Hzero : taken false train (n_batch self) (s + 1) (length rest) = 0)
          by reflexivity.
        rewrite Hzero in *. simpl firstn in *. split; assumption.
    + cbn [bind].
      destruct (IH self r e (s + 1) Hr He) as (self' & e' & -> & He' & Hy & Ho).
      exists self', e'. split; [reflexivity |]. split; [exact He' |].
      assert (Hzero : taken (has_metrics r) train (n_batch self) (s + 1) (length rest) = 0).
      { unfold taken. destruct (has_metrics r), train; simpl in *; try reflexivity.
        destruct (n_batch self) as [k |]; [| discriminate].
        destruct (Z.gtb_spec k s); [discriminate | lia]. }
      rewrite Hzero in *. simpl firstn in *. split; assumption.
Qed.

Lemma validation_batches_skipped (batches : list (Tensor * Tensor)) :
  forall (self : TrainMetricsRecorder) (s : Z),
    on_batches self false s batches = Ok self.
Proof.
  induction batches as [| [t o] rest IH]; intros self s; simpl; [reflexivity |].
  apply IH.
Qed.

(** C1.  In any epoch of a run, with a cap that [__init__] accepts: after
    [on_epoch_begin] and the calls of [on_batch_end] for the batches
    [0 .. n-1] of one phase, both buffers have length [min(n, k)] for
    training batches under a cap [k] with metrics configured, length [n]
    with no cap, and length [0] without metrics or in the validation
    phase; the validation batches that follow leave the buffers as they
    are. *)
Theorem batch_buffer_length (self : TrainMetricsRecorder) (r : run_state)
    (now : Q) (train : bool) (batches : list (Tensor * Tensor)) :
  run self = Some r ->
  cap_ok self ->
  exists self' e',
    on_batches (on_epoch_begin self now) train 0 batches = Ok self'
    /\ epoch_st self' = Some e'
    /\ Z.of_nat (length (y e'))
       = claimed_buffer_length (has_metrics r) train (n_batch self) (length batches)
    /\ Z.of_nat (length (out e'))
       = claimed_buffer_length (has_metrics r) train (n_batch self) (length batches)
    /\ forall validation_batches,
         on_batches self' false 0 validation_batches = Ok self'.
Proof.
  intros Hr Hcap.
  destruct (on_batches_lengths train batches (on_epoch_begin self now) r
              (mkEpoch now [] []) 0 Hr eq_refl)
    as (self' & e' & Hrun & _ & _ & He' & Hy & Ho).
  exists self', e'. simpl in Hy, Ho.
  rewrite taken_from_zero in Hy, Ho by exact Hcap.
  repeat split; try assumption.
  intros vb. apply validation_batches_skipped.
Qed.

(** ** Column header *)

Lemma add_metric_names_flat (has_val : bool) (ms : list string) :
  forall names,
    add_metric_names has_val names ms
    = names ++ flat_map (metric_columns has_val) ms.
Proof.
  unfold add_metric_names.
  induction ms as [| m ms IH]; intros names; simpl.
  - now rewrite app_nil_r.
  - rewrite IH. unfold metric_columns at 2.
    destruct has_val; simpl; now rewrite <- !app_assoc.
Qed.

Lemma length_metric_columns (has_val : bool) (ms : list string) :
  length (flat_map (metric_columns has_val) ms)
  = (length ms * (if has_val then 2 else 1))%nat.
Proof.
  induction ms as [| m ms IH]; simpl; [reflexivity |].
  rewrite length_app, IH. destruct has_val; simpl; lia.
Qed.

(** C5.  After [on_train_begin] with [m] metric functions the header is
    epoch, train_loss, [valid_loss], then for each metric name train_<name>
    [valid_<name>], then time; its length is
    [2 + has_val + m * (2 if has_val else 1) + 1]. *)
Theorem header_columns (self : TrainMetricsRecorder) (pbar : PBar)
    (metrics : list metric_fn) (n_epochs : Z) :
  let has_val := data_has_valid_ds (learn self) in
  exists r,
    run (on_train_begin self pbar metrics n_epochs) = Some r
    /\ names r = claimed_header has_val (map m_name metrics)
    /\ Z.of_nat (length (names r))
       = 2 + (if has_val then 1 else 0)
         + Z.of_nat (length metrics) * (if has_val then 2 else 1) + 1.
Proof.
  intros has_val. eexists. split; [reflexivity |].
  cbn [names]. rewrite add_metric_names_flat.
  cbn [learn set_learn]. fold has_val.
  split.
  - unfold claimed_header. destruct has_val; simpl; now rewrite <- ?app_assoc.
  - rewrite !length_app, length_metric_columns, length_map.
    destruct has_val; simpl length; lia.
Qed.

(** ** Accessors *)

Lemma index_last_snoc {A : Type} (l : list A) (a : A) :
  index_last (l ++ [a]) = Ok a.
Proof. unfold index_last. now rewrite rev_unit. Qed.

(** C9, as the code has it.  Once [on_train_begin] has run,
    [last_train_metrics] and [last_valid_metrics] return the vector
    appended last to their history list, and raise [IndexError] when that
    list is empty.  Before [on_train_begin] the lists do not exist and
    both raise [AttributeError]. *)
Theorem last_metrics_spec (self : TrainMetricsRecorder) :
  (run self = None ->
   last_train_metrics self = Raise (AttributeError "train_metrics")
   /\ last_valid_metrics self = Raise (AttributeError "valid_metrics"))
  /\ (forall r,
        run self = Some r ->
        (forall hist v, train_metrics r = hist ++ [v] ->
                        last_train_metrics self = Ok v)
        /\ (train_metrics r = [] -> last_train_metrics self = Raise IndexError)
        /\ (forall hist v, valid_metrics r = hist ++ [v] ->
                           last_valid_metrics self = Ok v)
        /\ (valid_metrics r = [] -> last_valid_metrics self = Raise IndexError)).
Proof.
  unfold last_train_metrics, last_valid_metrics. split.
  - intros ->. split; reflexivity.
  - intros r ->. simpl. repeat split.
    + intros hist v ->. apply index_last_snoc.
    + intros ->. reflexivity.
    + intros hist v ->. apply index_last_snoc.
    + intros ->. reflexivity.
Qed.

(** ** Formatting of the stats row *)






Lemma mapM_Forall2 {A B : Type} (f : A -> result B) (l : list A) (bs : list B) :
  mapM f l = Ok bs <-> Forall2 (fun a b => f a = Ok b) l bs.
Proof.
  revert bs. induction l as [| a l IH]; intros bs; simpl.
  - split.
    + intros [= <-]. constructor.
    + intros H. inversion H. reflexivity.
  - split.
    + destruct (f a) as [b | e] eqn:Hb; simpl; [| discriminate].
      destruct (mapM f l) as [bs' | e] eqn:Hbs; simpl; [| discriminate].
      intros [= <-]. constructor; [assumption | now apply IH].
    + intros H. inversion H as [| a' b l' bs' Hb Hrest]; subst.
      rewrite Hb. simpl. apply IH in Hrest. rewrite Hrest. reflexivity.
Qed.

Lemma mapM_zip_names {A B C : Type} (f : B -> result C) (stats : list B) :
  forall names : list A,
    (length stats <= length names)%nat ->
    mapM (fun ns => f (snd ns)) (combine names stats) = mapM f stats.
Proof.
  induction stats as [| s stats IH]; intros [| n names] Hlen; simpl in *;
    try reflexivity; try lia.
  rewrite IH by lia. reflexivity.
Qed.








Section FormatStats.

Variable format_time : Q -> string.


End FormatStats.

(** ** What the calls of a run keep and change *)

Lemma bind_Ok {A B : Type} (m : result A) (f : A -> result B) (b : B) :
  bind m f = Ok b -> exists a, m = Ok a /\ f a = Ok b.
Proof. destruct m as [a | e]; simpl; [eauto | discriminate]. Qed.

Tactic Notation "inv_bind" ident(H) "as" ident(a) ident(Ha) :=
  apply bind_Ok in H; destruct H as (a & Ha & H).


Lemma plot_keeps (self self' : TrainMetricsRecorder) :
  plot self = Ok self' ->
  same_config self self' /\ run self' = run self /\ epoch_st self' = epoch_st self.
Proof.
  unfold plot. intros H. inv_bind H as r Hr.
  destruct (Nat.eqb (length (train_metrics r)) 0); [discriminate |].
  inv_bind H as u Hu. inv_bind H as p Hp. inv_bind H as axs Haxs.
  injection H as <-. unfold same_config. simpl. repeat split.
Qed.

Lemma on_batch_end_keeps (self self' : TrainMetricsRecorder) (train : bool)
    (nb : Z) (t o : Tensor) :
  on_batch_end self train nb t o = Ok self' ->
  same_config self self' /\ run self' = run self /\ fig self' = fig self.
Proof.
  unfold on_batch_end, same_config. intros H.
  destruct (train && _).
  - inv_bind H as r Hr. destruct (has_metrics r).
    + inv_bind H as e He. injection H as <-. simpl. repeat split.
    + injection H as <-. repeat split.
  - injection H as <-. repeat split.
Qed.

Section RunInvariants.

Variable format_time : Q -> string.

Lemma format_stats_keeps (self self' : TrainMetricsRecorder)
    (stats : list pyval) (now : Q) (r : run_state) :
  _format_stats format_time self stats now = Ok self' ->
  run self = Some r ->
  same_config self self' /\ epoch_st self' = epoch_st self
  /\ fig self' = fig self
  /\ exists r', run self' = Some r' /\ same_history r r'.
Proof.
  unfold _format_stats. intros H Hr. rewrite Hr in H. simpl in H.
  inv_bind H as strs Hstrs. inv_bind H as e He. injection H as <-.
  unfold same_config, same_history. simpl. repeat split.
  eexists. split; [reflexivity |]. simpl. repeat split.
Qed.


Lemma on_epoch_end_history (self self' : TrainMetricsRecorder) (r : run_state)
    (epoch : Z) (smooth_loss : Tensor) (metrics : list metric_fn)
    (last_metrics : list pyval) (now : Q) :
  run self = Some r ->
  on_epoch_end format_time self epoch smooth_loss metrics last_metrics now
  = Ok self' ->
  same_config self self'
  /\ exists r', run self' = Some r' /\ history_step self r r' metrics last_metrics.
Proof.
  intros Hr H. unfold on_epoch_end in H. rewrite Hr in H. simpl in H.
  inv_bind H as stats0 Hstats0. clear Hstats0.
  inv_bind H as p Hp. destruct p as [self1 stats1].
  assert (Hmid : same_config self self1
                 /\ exists r1, run self1 = Some r1
                               /\ history_step self r r1 metrics last_metrics).
  { unfold history_step. destruct (has_metrics r) eqn:Hm.
    - inv_bind Hp as tr_lm Htr. inv_bind Hp as stats2 Hstats2.
      injection Hp as <- <-.
      split; [unfold same_config; simpl; repeat split |].
      eexists. split; [reflexivity |].
      destruct (has_val r) eqn:Hv; simpl; rewrite ?Hm, ?Hv;
        repeat split; eexists; repeat split; eassumption.
    - injection Hp as <- <-.
      split; [unfold same_config; repeat split |].
      exists r. repeat split; assumption. }
  clear Hp. destruct Hmid as (Hc1 & r1 & Hr1 & Hstep).
  destruct (negb (silent self1)).
  - inv_bind H as self2 Hfmt.
    destruct (format_stats_keeps _ _ _ _ _ Hfmt Hr1)
      as (Hc2 & _ & _ & r2 & Hr2 & Hs2).
    rewrite Hr2 in H. simpl in H.
    assert (Hfin : same_config self2 self' /\ run self' = run self2).
    { destruct (show_graph self2 && _).
      - apply plot_keeps in H. tauto.
      - injection H as <-. unfold same_config. repeat split. }
    destruct Hfin as (Hc3 & Hr3).
    unfold same_config in *. unfold same_history in Hs2.
    split; [intuition congruence |].
    exists r2. rewrite Hr3. split; [assumption |].
    destruct Hs2 as (E1 & E2 & _ & _ & _ & E3 & E4).
    unfold history_step in *. rewrite E1, E2, E3, E4. exact Hstep.
  - injection H as <-. split; [assumption |].
    exists r1. split; assumption.
Qed.

End RunInvariants.

(** ** The history lists along a run *)

Section Runs.

Variable format_time : Q -> string.

Lemma do_call_history (self self' : TrainMetricsRecorder) (r : run_state)
    (c : call) :
  run self = Some r ->
  do_call format_time self c = Ok self' ->
  same_config self self'
  /\ exists r',
      run self' = Some r'
      /\ has_metrics r' = has_metrics r /\ has_val r' = has_val r
      /\ length (train_metrics r')
         = (length (train_metrics r)
            + if has_metrics r then epochs_ended [c] else 0)%nat
      /\ length (valid_metrics r')
         = (length (valid_metrics r)
            + if has_metrics r && has_val r then epochs_ended [c] else 0)%nat.
Proof.
  intros Hr H. destruct c as [now | train nb t o | ep loss ms lm now |];
    simpl in H.
  - injection H as <-. split; [unfold same_config; repeat split |].
    exists r. simpl. repeat split; try assumption;
      destruct (has_metrics r), (has_val r); unfold epochs_ended; simpl; lia.
  - apply on_batch_end_keeps in H. destruct H as (Hc & Hrun & _).
    split; [assumption |]. exists r. rewrite Hrun.
    repeat split; try assumption;
      destruct (has_metrics r), (has_val r); unfold epochs_ended; simpl; lia.
  - destruct (on_epoch_end_history _ _ _ _ _ _ _ _ _ Hr H)
      as (Hc & r' & Hr' & Hm & Hv & Hstep).
    split; [assumption |]. exists r'. repeat split; try assumption.
    + destruct (has_metrics r).
      * destruct Hstep as (tr_lm & _ & -> & _). rewrite length_app. unfold epochs_ended. simpl. lia.
      * destruct Hstep as (-> & _). simpl. lia.
    + destruct (has_metrics r).
      * destruct Hstep as (tr_lm & _ & _ & ->).
        destruct (has_val r); unfold epochs_ended; simpl; [rewrite length_app; simpl; lia | lia].
      * destruct Hstep as (_ & ->). simpl. lia.
  - apply plot_keeps in H. destruct H as (Hc & Hrun & _).
    split; [assumption |]. exists r. rewrite Hrun.
    repeat split; try assumption;
      destruct (has_metrics r), (has_val r); unfold epochs_ended; simpl; lia.
Qed.

Lemma epochs_ended_cons (c : call) (cs : list call) :
  epochs_ended (c :: cs) = (epochs_ended [c] + epochs_ended cs)%nat.
Proof. unfold epochs_ended. simpl. destruct c; reflexivity. Qed.

Lemma do_calls_history (cs : list call) :
  forall (self self' : TrainMetricsRecorder) (r : run_state),
    run self = Some r ->
    do_calls format_time self cs = Ok self' ->
    same_config self self'
    /\ exists r',
        run self' = Some r'
        /\ has_metrics r' = has_metrics r /\ has_val r' = has_val r
        /\ length (train_metrics r')
           = (length (train_metrics r)
              + if has_metrics r then epochs_ended cs else 0)%nat
        /\ length (valid_metrics r')
           = (length (valid_metrics r)
              + if has_metrics r && has_val r then epochs_ended cs else 0)%nat.
Proof.
  unfold do_calls.
  induction cs as [| c cs IH]; intros self self' r Hr H; simpl in H.
  - injection H as <-. split; [unfold same_config; repeat split |].
    exists r. repeat split; try assumption;
      destruct (has_metrics r), (has_val r); unfold epochs_ended; simpl; lia.
  - inv_bind H as self1 Hc.
    destruct (do_call_history _ _ _ _ Hr Hc)
      as (Hc1 & r1 & Hr1 & Hm1 & Hv1 & Ht1 & Hl1).
    destruct (IH _ _ _ Hr1 H) as (Hc2 & r2 & Hr2 & Hm2 & Hv2 & Ht2 & Hl2).
    split; [unfold same_config in *; intuition congruence |].
    exists r2. rewrite epochs_ended_cons. rewrite Hm1 in Ht2. rewrite Hm1, Hv1 in Hl2.
    split; [assumption |]. split; [congruence |]. split; [congruence |].
    split; destruct (has_metrics r), (has_val r); simpl in *; lia.
Qed.

Lemma on_train_begin_run (self0 : TrainMetricsRecorder) (pbar : PBar)
    (metrics : list metric_fn) (n_epochs : Z) :
  exists r,
    run (on_train_begin self0 pbar metrics n_epochs) = Some r
    /\ has_metrics r = match metrics with [] => false | _ => true end
    /\ has_val r = data_has_valid_ds (learn self0)
    /\ metrics_names r = map m_name metrics
    /\ train_metrics r = [] /\ valid_metrics r = []
    /\ n_batch (on_train_begin self0 pbar metrics n_epochs) = n_batch self0
    /\ epoch_st (on_train_begin self0 pbar metrics n_epochs) = epoch_st self0
    /\ fig (on_train_begin self0 pbar metrics n_epochs) = fig self0.
Proof.
  eexists. split; [reflexivity |]. cbn [has_metrics has_val metrics_names
    train_metrics valid_metrics n_batch epoch_st fig set_run set_learn learn].
  repeat split.
  destruct metrics as [| m ms]; [reflexivity |].
  apply Z.gtb_lt. simpl length. lia.
Qed.

(** C2, as the code has it.  In a run whose calls return: with a metric
    function configured, after the [e]-th [on_epoch_end] the training
    history has [e] entries and, when a validation split exists, so has the
    validation history; with no metric function configured both lists stay
    empty.  With a validation split the two lists are equally long. *)
Theorem history_length (self0 self' : TrainMetricsRecorder) (pbar : PBar)
    (metrics : list metric_fn) (n_epochs : Z) (cs : list call) :
  do_calls format_time (on_train_begin self0 pbar metrics n_epochs) cs = Ok self' ->
  exists r',
    run self' = Some r'
    /\ has_val r' = data_has_valid_ds (learn self0)
    /\ (metrics <> [] ->
        length (train_metrics r') = epochs_ended cs
        /\ (has_val r' = true -> length (valid_metrics r') = epochs_ended cs))
    /\ (metrics = [] -> train_metrics r' = [] /\ valid_metrics r' = [])
    /\ (has_val r' = true ->
        length (valid_metrics r') = length (train_metrics r')).
Proof.
  intros H.
  destruct (on_train_begin_run self0 pbar metrics n_epochs)
    as (r & Hr & Hm0 & Hv0 & _ & Ht0 & Hl0 & _).
  destruct (do_calls_history cs _ _ _ Hr H)
    as (_ & r' & Hr' & Hm & Hv & Ht & Hl).
  rewrite Ht0 in Ht. rewrite Hl0 in Hl. rewrite Hm0 in Ht, Hl. simpl in Ht, Hl.
  exists r'. split; [assumption |]. split; [congruence |].
  destruct metrics as [| m ms].
  - simpl in Hl.
    split; [intros Hne; now destruct Hne |].
    split; [intros _; split; now apply length_zero_iff_nil |].
    intros _. lia.
  - split.
    { intros _. split; [exact Ht |].
      intros Hval. rewrite <- Hv, Hval in Hl. exact Hl. }
    split; [discriminate |].
    intros Hval. rewrite <- Hv, Hval in Hl. simpl in Hl. lia.
Qed.

End Runs.

(** C2 as stated fails: with no metric function configured (and a
    validation split), one epoch ends and both history lists are still
    empty.  The run is [on_train_begin] with [metrics = []] followed by
    [epoch_without_metrics]. *)
Lemma history_length_needs_metrics :
  ~ (forall (format_time : Q -> string) (self0 self' : TrainMetricsRecorder)
       (pbar : PBar) (metrics : list metric_fn) (n_epochs : Z)
       (cs : list call) (r' : run_state),
        do_calls format_time (on_train_begin self0 pbar metrics n_epochs) cs
        = Ok self' ->
        run self' = Some r' ->
        length (train_metrics r') = epochs_ended cs
        /\ (has_val r' = true -> length (valid_metrics r') = epochs_ended cs)).
Proof.
  intros H.
  assert (E : exists s r,
             do_calls sample_format_time
               (on_train_begin (fresh_recorder sample_learner None false false)
                  [] [] 1)
               epoch_without_metrics = Ok s
             /\ run s = Some r /\ length (train_metrics r) = 0%nat).
  { eexists _, _. split; [vm_compute; reflexivity |].
    split; reflexivity. }
  destruct E as (s & r & Hs & Hr & Hlen).
  destruct (H _ _ _ _ _ _ _ _ Hs Hr) as (Habs & _).
  rewrite Hlen in Habs. discriminate Habs.
Qed.

(** ** Evaluation of the training metrics at the end of an epoch *)

Lemma mapM_ext {A B : Type} (f g : A -> result B) (l : list A) :
  (forall a, f a = g a) -> mapM f l = mapM g l.
Proof.
  intros Hfg. induction l as [| a l IH]; simpl; [reflexivity |].
  now rewrite Hfg, IH.
Qed.

Lemma eval_train_metrics_stacked (self : TrainMetricsRecorder) (e : epoch_state)
    (metrics : list metric_fn) (outs targs : Tensor) :
  epoch_st self = Some e ->
  torch_stack (out e) = Ok outs -> torch_stack (y e) = Ok targs ->
  eval_train_metrics self metrics
  = mapM (fun m_fn => m_call m_fn outs targs) metrics.
Proof.
  intros He Ho Hy. unfold eval_train_metrics. apply mapM_ext. intros m.
  rewrite He. simpl. rewrite Ho. simpl. rewrite Hy. reflexivity.
Qed.




Lemma Forall2_same_length {A B : Type} (P : A -> B -> Prop) (l : list A)
    (l' : list B) :
  Forall2 P l l' -> length l = length l'.
Proof. induction 1; simpl; congruence. Qed.

Section EpochEnd.

Variable format_time : Q -> string.


End EpochEnd.


(** The same happens when the accumulated batches differ in shape. *)
Example epoch_end_on_unequal_batches :
  do_calls sample_format_time sample_state
    [OnEpochBegin 0;
     OnBatchEnd true 0 labels_a preds_a;
     OnBatchEnd true 1 (mkTensor CUDA (Dim [Scalar 1])) (mkTensor CUDA (Dim [Scalar 1]));
     OnEpochEnd 0 loss_a [match_rate] [VFloat 0.61; VFloat 0.5] 75]
  = Raise (RuntimeError "stack expects each tensor to be equal size").
Proof. vm_compute. reflexivity. Qed.

(** What a metric function receives is the stack: for two batches of two
    outputs a tensor of shape [2; 2], the batches along the new leading
    dimension. *)
Example metrics_see_the_stack :
  eval_train_metrics state_before_epoch_end [outputs_seen]
  = Ok [VTensor sample_outs]
  /\ shape (data sample_outs) = [2; 2]%nat
  /\ map shape (map data (out sample_epoch_state)) = [[2]; [2]]%nat.
Proof. repeat split. Qed.

(** ** Which exceptions [plot] raises *)

Lemma bind_Raise {A B : Type} (m : result A) (f : A -> result B) (e : exn) :
  bind m f = Raise e -> m = Raise e \/ exists a, m = Ok a /\ f a = Raise e.
Proof. destruct m as [a | e']; simpl; [eauto | intros [= ->]; auto]. Qed.

Lemma mapM_Raise {A B : Type} (f : A -> result B) (l : list A) (e : exn) :
  mapM f l = Raise e -> exists a, In a l /\ f a = Raise e.
Proof.
  induction l as [| a l IH]; simpl; [discriminate |].
  intros H. apply bind_Raise in H. destruct H as [H | (b & _ & H)].
  - eauto.
  - apply bind_Raise in H. destruct H as [H | (bs & _ & H)]; [| discriminate].
    destruct (IH H) as (a' & Hin & Ha'). eauto.
Qed.

Lemma mapM_head_Raise {A B : Type} (f : A -> result B) (a : A) (l : list A)
    (e : exn) :
  f a = Raise e -> mapM f (a :: l) = Raise e.
Proof. intros H. simpl. now rewrite H. Qed.

Lemma index_not_no_records {A : Type} (l : list A) (i : nat) :
  index l i <> Raise no_records.
Proof. unfold index. destruct (nth_error l i); discriminate. Qed.

Lemma item_not_no_records : forall t : tdata, item t <> Raise no_records.
Proof.
  fix IH 1. intros [x | l]; simpl; [discriminate |].
  destruct l as [| u [| v l']]; try discriminate. apply IH.
Qed.

Lemma scalar_of_not_no_records (v : pyval) : scalar_of v <> Raise no_records.
Proof. destruct v; simpl; try discriminate. apply item_not_no_records. Qed.

Lemma Tensor_of_list_not_no_records (l : list pyval) :
  Tensor_of_list l <> Raise no_records.
Proof.
  intros H. apply mapM_Raise in H. destruct H as (v & _ & H).
  now apply scalar_of_not_no_records in H.
Qed.

Lemma py_min_not_no_records (l : list Q) : py_min l <> Raise no_records.
Proof. destruct l; discriminate. Qed.

Lemma py_max_not_no_records (l : list Q) : py_max l <> Raise no_records.
Proof. destruct l; discriminate. Qed.

Lemma ax_plot_not_no_records (ax : Axes) (x : list Z) (ys : list pyval)
    (label : string) :
  ax_plot ax x ys label <> Raise no_records.
Proof. unfold ax_plot. destruct (Nat.eqb _ _); discriminate. Qed.

Lemma series_not_no_records (hist : list (list pyval)) (i : nat) :
  mapM (fun met => index met i) hist <> Raise no_records.
Proof.
  intros H. apply mapM_Raise in H. destruct H as (met & _ & H).
  now apply index_not_no_records in H.
Qed.

Ltac step_bind H :=
  apply bind_Raise in H;
  let a := fresh "a" in
  let Ha := fresh "Ha" in
  destruct H as [H | (a & Ha & H)].

Lemma plot_panel_not_no_records (r : run_state) (i : nat) (ax : Axes) :
  plot_panel r i ax <> Raise no_records.
Proof.
  unfold plot_panel. intros H.
  step_bind H; [now apply series_not_no_records in H |].
  step_bind H; [now apply ax_plot_not_no_records in H |].
  step_bind H.
  { destruct (0 <? length (valid_metrics r))%nat; [| discriminate].
    step_bind H; [now apply series_not_no_records in H |].
    step_bind H; [now apply ax_plot_not_no_records in H | discriminate]. }
  destruct a1 as [ax1 vl_m].
  step_bind H; [now apply Tensor_of_list_not_no_records in H |].
  step_bind H; [now apply py_min_not_no_records in H |].
  step_bind H; [now apply Tensor_of_list_not_no_records in H |].
  step_bind H; [now apply py_min_not_no_records in H |].
  step_bind H; [now apply Tensor_of_list_not_no_records in H |].
  step_bind H; [now apply py_max_not_no_records in H |].
  step_bind H; [now apply Tensor_of_list_not_no_records in H |].
  step_bind H; [now apply py_max_not_no_records in H |].
  step_bind H; [now apply index_not_no_records in H | discriminate].
Qed.

Lemma plot_no_records_aux (self : TrainMetricsRecorder) (r : run_state) :
  run self = Some r ->
  (train_metrics r = [] -> plot self = Raise (ValueError "No records to plot."))
  /\ (train_metrics r <> [] -> plot self <> Raise (ValueError "No records to plot.")).
Proof.
  intros Hr. unfold plot. rewrite Hr. simpl. split.
  - intros ->. reflexivity.
  - intros Hne. destruct (train_metrics r) as [| t0 hist] eqn:Ht; [easy |].
    simpl Nat.eqb. cbv iota. fold no_records. intros H.
    step_bind H.
    { destruct (0 <? length (valid_metrics r))%nat; [| discriminate].
      step_bind H; [discriminate |].
      step_bind H; [now apply index_not_no_records in H |].
      unfold py_assert in H. destruct (Nat.eqb _ _); discriminate. }
    step_bind H.
    { destruct (fig self); [discriminate |].
      step_bind H; [discriminate |].
      step_bind H; [| discriminate].
      unfold plt_subplots in H. destruct (length a0); discriminate. }
    step_bind H; [| discriminate].
    apply mapM_Raise in H. destruct H as (ia & _ & H).
    now apply plot_panel_not_no_records in H.
Qed.

(** C8, as the code has it.  Once [on_train_begin] has run, [plot] raises
    the "No records to plot." error when the training history is empty,
    and never raises it when the history is not empty.  Before
    [on_train_begin] the history does not exist and [plot] raises
    [AttributeError]. *)
Theorem plot_no_records (self : TrainMetricsRecorder) :
  (run self = None -> plot self = Raise (AttributeError "train_metrics"))
  /\ (forall r,
        run self = Some r ->
        (train_metrics r = [] ->
         plot self = Raise (ValueError "No records to plot."))
        /\ (train_metrics r <> [] ->
            plot self <> Raise (ValueError "No records to plot."))).
Proof.
  split.
  - intros Hr. unfold plot. rewrite Hr. reflexivity.
  - intros r Hr. exact (plot_no_records_aux self r Hr).
Qed.

(** C8 as stated fails on the object [__init__] returns: no epoch has
    completed, and [plot] raises [AttributeError], not the "no records"
    error. *)
Lemma plot_on_new_callback :
  __init__ sample_learner (Some 2) false false = Ok new_callback
  /\ plot new_callback = Raise (AttributeError "train_metrics")
  /\ plot new_callback <> Raise (ValueError "No records to plot.").
Proof. split; [reflexivity |]. split; [reflexivity | discriminate]. Qed.

(** C9 as stated fails on the object [__init__] returns: no epoch has
    completed, and the accessors raise [AttributeError], not the
    out-of-range error. *)
Lemma accessors_on_new_callback :
  __init__ sample_learner (Some 2) false false = Ok new_callback
  /\ last_train_metrics new_callback = Raise (AttributeError "train_metrics")
  /\ last_train_metrics new_callback <> Raise IndexError
  /\ last_valid_metrics new_callback = Raise (AttributeError "valid_metrics")
  /\ last_valid_metrics new_callback <> Raise IndexError.
Proof. repeat split; try reflexivity; discriminate. Qed.

(** ** [plot] without a validation history *)

Lemma py_min_empty : py_min [] = Raise min_of_empty.
Proof. reflexivity. Qed.

Lemma py_min_nonempty (l : list Q) :
  l <> [] -> exists m, py_min l = Ok m.
Proof. destruct l as [| x l]; [easy | simpl; eauto]. Qed.

Lemma mapM_length {A B : Type} (f : A -> result B) (l : list A) (bs : list B) :
  mapM f l = Ok bs -> length bs = length l.
Proof.
  intros H. apply mapM_Forall2 in H.
  symmetry. eapply Forall2_same_length. eassumption.
Qed.

Lemma length_range (n : nat) : length (range n) = n.
Proof. unfold range. now rewrite length_map, length_seq. Qed.

(** A panel cannot be drawn without a validation history: whatever the
    training history holds, the panel raises, and it is the minimum of the
    empty validation series that raises once the training series is made
    of scalars. *)
Lemma plot_panel_without_validation (r : run_state) (i : nat) (ax : Axes) :
  valid_metrics r = [] ->
  train_metrics r <> [] ->
  (exists e, plot_panel r i ax = Raise e)
  /\ (forall tr_m xs,
        mapM (fun met => index met i) (train_metrics r) = Ok tr_m ->
        Tensor_of_list tr_m = Ok xs ->
        plot_panel r i ax = Raise min_of_empty).
Proof.
  intros Hv Hne.
  assert (Hgen : forall tr_m xs,
             mapM (fun met => index met i) (train_metrics r) = Ok tr_m ->
             Tensor_of_list tr_m = Ok xs ->
             plot_panel r i ax = Raise min_of_empty).
  { intros tr_m xs Htr Hxs. unfold plot_panel. rewrite Htr. simpl.
    unfold ax_plot. rewrite length_range, Nat.eqb_refl. simpl.
    rewrite Hv. simpl. rewrite Hxs. simpl.
    destruct (py_min_nonempty xs) as (m & ->).
    - intros ->. apply mapM_length in Hxs. apply mapM_length in Htr.
      destruct tr_m; [| discriminate].
      destruct (train_metrics r); [easy | discriminate].
    - reflexivity. }
  split; [| exact Hgen].
  destruct (mapM (fun met => index met i) (train_metrics r)) as [tr_m | e] eqn:Htr.
  - destruct (Tensor_of_list tr_m) as [xs | e] eqn:Hxs.
    + eauto.
    + exists e. unfold plot_panel. rewrite Htr. simpl.
      unfold ax_plot. rewrite length_range, Nat.eqb_refl. simpl.
      rewrite Hv. simpl. rewrite Hxs. reflexivity.
  - exists e. unfold plot_panel. rewrite Htr. reflexivity.
Qed.

(** C10.  With a training history and no validation history, [plot]
    raises although the "no records" check has passed (the exception is not
    that one); with a training history of scalar values it is [min] of the
    empty validation series that raises. *)
Theorem plot_without_validation_raises (self : TrainMetricsRecorder)
    (r : run_state) :
  run self = Some r ->
  train_metrics r <> [] ->
  valid_metrics r = [] ->
  fig_ok self ->
  (exists e, plot self = Raise e /\ e <> ValueError "No records to plot.")
  /\ ((forall met, In met (train_metrics r) ->
                   exists v x, nth_error met 0 = Some v /\ scalar_of v = Ok x) ->
      plot self = Raise (ValueError "min() arg is an empty sequence")).
Proof.
  intros Hr Hne Hv Hfig.
  assert (Hraise : exists e, plot self = Raise e /\
            ((forall met, In met (train_metrics r) ->
                   exists v x, nth_error met 0 = Some v /\ scalar_of v = Ok x) ->
             e = min_of_empty)).
  { unfold plot. rewrite Hr. simpl.
    destruct (train_metrics r) as [| t0 hist] eqn:Ht; [easy |].
    simpl Nat.eqb. cbv iota. rewrite Hv. simpl.
    assert (Hpanel : forall ax rest,
               exists e,
                 mapM (fun ia => plot_panel r (fst ia) (snd ia))
                   (enumerate (ax :: rest)) = Raise e
                 /\ ((forall met, In met (t0 :: hist) ->
                        exists v x, nth_error met 0 = Some v /\ scalar_of v = Ok x) ->
                     e = min_of_empty)).
    { intros ax rest.
      destruct (plot_panel_without_validation r 0 ax Hv ltac:(congruence))
        as ((e & He) & Hmin).
      exists e. split; [apply mapM_head_Raise; exact He |].
      intros Hscalars.
      assert (Hs : exists tr_m xs,
                 mapM (fun met => index met 0%nat) (train_metrics r) = Ok tr_m
                 /\ Tensor_of_list tr_m = Ok xs).
      { rewrite Ht. clear - Hscalars.
        induction (t0 :: hist) as [| met l IH].
        - exists [], []. split; reflexivity.
        - destruct (Hscalars met (or_introl eq_refl)) as (v & x & Hv0 & Hx).
          destruct IH as (tr_m & xs & Htr & Hxs);
            [intros m Hin; apply Hscalars; now right |].
          exists (v :: tr_m), (x :: xs). simpl. unfold index at 1.
          rewrite Hv0. simpl. rewrite Htr. simpl. split; [reflexivity |].
          unfold Tensor_of_list in *. simpl. rewrite Hx. simpl.
          rewrite Hxs. reflexivity. }
      destruct Hs as (tr_m & xs & Htr & Hxs).
      rewrite (Hmin tr_m xs Htr Hxs) in He. now injection He as <-. }
    unfold fig_ok in Hfig. destruct (fig self) as [p |] eqn:Hp.
    - cbn [bind]. destruct (axes p) as [| ax rest]; [easy |].
      destruct (Hpanel ax rest) as (e & -> & He).
      exists e. split; [reflexivity | exact He].
    - unfold plt_subplots.
      destruct (length t0) as [| n] eqn:Hlen.
      + simpl. eexists. split; [reflexivity |].
        intros Hscalars.
        destruct (Hscalars t0 (or_introl eq_refl)) as (v & x & Hv0 & _).
        destruct t0; [discriminate | discriminate].
      + change (repeat new_axes (S n)) with (new_axes :: repeat new_axes n).
        cbn [bind axes].
        destruct (Hpanel new_axes (repeat new_axes n)) as (e & -> & He).
        exists e. split; [reflexivity | exact He]. }
  destruct Hraise as (e & He & Hmin). split.
  - exists e. split; [exact He |].
    intros ->. fold no_records in He. revert He.
    apply (proj2 (plot_no_records_aux self r Hr)). exact Hne.
  - intros Hscalars. rewrite He. f_equal. now apply Hmin.
Qed.

(** ** Axis bounds of a panel *)

Lemma Qlt_bool_true (x y : Q) : Qlt_bool x y = true -> (x < y)%Q.
Proof.
  unfold Qlt_bool. intros H. apply negb_true_iff in H.
  apply Qnot_le_lt. intros Hle. apply Qle_bool_iff in Hle. congruence.
Qed.

Lemma Qlt_bool_false (x y : Q) : Qlt_bool x y = false -> (y <= x)%Q.
Proof.
  unfold Qlt_bool. intros H. apply negb_false_iff in H.
  now apply Qle_bool_iff.
Qed.

Lemma fold_min_is_min (l : list Q) :
  forall x,
    is_min (fold_left (fun best v => if Qlt_bool v best then v else best) l x)
      (x :: l).
Proof.
  induction l as [| v l IH]; intros x; simpl.
  - split; [now left | intros y [<- | []]; apply Qle_refl].
  - destruct (Qlt_bool v x) eqn:Hvx.
    + apply Qlt_bool_true in Hvx. destruct (IH v) as (Hin & Hle). split.
      * right. exact Hin.
      * intros z [<- | Hz]; [| now apply Hle].
        apply Qle_trans with v; [apply Hle; now left | now apply Qlt_le_weak].
    + apply Qlt_bool_false in Hvx. destruct (IH x) as (Hin & Hle). split.
      * destruct Hin as [<- | Hin]; [now left | right; now right].
      * intros z [<- | [<- | Hz]].
        -- apply Hle. now left.
        -- apply Qle_trans with x; [apply Hle; now left | exact Hvx].
        -- apply Hle. now right.
Qed.

Lemma fold_max_is_max (l : list Q) :
  forall x,
    is_max (fold_left (fun best v => if Qlt_bool best v then v else best) l x)
      (x :: l).
Proof.
  induction l as [| v l IH]; intros x; simpl.
  - split; [now left | intros y [<- | []]; apply Qle_refl].
  - destruct (Qlt_bool x v) eqn:Hxv.
    + apply Qlt_bool_true in Hxv. destruct (IH v) as (Hin & Hle). split.
      * right. exact Hin.
      * intros z [<- | Hz]; [| now apply Hle].
        apply Qle_trans with v; [now apply Qlt_le_weak | apply Hle; now left].
    + apply Qlt_bool_false in Hxv. destruct (IH x) as (Hin & Hle). split.
      * destruct Hin as [<- | Hin]; [now left | right; now right].
      * intros z [<- | [<- | Hz]].
        -- apply Hle. now left.
        -- apply Qle_trans with x; [exact Hxv | apply Hle; now left].
        -- apply Hle. now right.
Qed.

Lemma py_min_is_min (l : list Q) (m : Q) : py_min l = Ok m -> is_min m l.
Proof.
  destruct l as [| x l]; [discriminate |]. intros [= <-]. apply fold_min_is_min.
Qed.

Lemma py_max_is_max (l : list Q) (m : Q) : py_max l = Ok m -> is_max m l.
Proof.
  destruct l as [| x l]; [discriminate |]. intros [= <-]. apply fold_max_is_max.
Qed.

Lemma py_min3_is_min (a b c : Q) (tr vl : list Q) :
  is_min b tr -> is_min c vl -> is_min (py_min3 a b c) (a :: tr ++ vl).
Proof.
  intros (Hb & Hbl) (Hc & Hcl).
  destruct (fold_min_is_min [b; c] a) as (Hin & Hle). fold (py_min3 a b c) in *.
  split.
  - destruct Hin as [<- | [<- | [<- | []]]].
    + now left.
    + right. apply in_or_app. now left.
    + right. apply in_or_app. now right.
  - intros z [<- | Hz].
    + apply Hle. now left.
    + apply in_app_or in Hz. destruct Hz as [Hz | Hz].
      * apply Qle_trans with b; [apply Hle; right; now left | now apply Hbl].
      * apply Qle_trans with c; [apply Hle; right; right; now left | now apply Hcl].
Qed.

Lemma py_max3_is_max (a b c : Q) (tr vl : list Q) :
  is_max b tr -> is_max c vl -> is_max (py_max3 a b c) (a :: tr ++ vl).
Proof.
  intros (Hb & Hbl) (Hc & Hcl).
  destruct (fold_max_is_max [b; c] a) as (Hin & Hle). fold (py_max3 a b c) in *.
  split.
  - destruct Hin as [<- | [<- | [<- | []]]].
    + now left.
    + right. apply in_or_app. now left.
    + right. apply in_or_app. now right.
  - intros z [<- | Hz].
    + apply Hle. now left.
    + apply in_app_or in Hz. destruct Hz as [Hz | Hz].
      * apply Qle_trans with b; [now apply Hbl | apply Hle; right; now left].
      * apply Qle_trans with c; [now apply Hcl | apply Hle; right; right; now left].
Qed.

(** A panel that is drawn has the x-axis bounds [(-0.05, n_epochs - 0.95)]
    and the y-axis bounds [(lo - 0.05, hi + 0.05)], where [lo] is the
    least of [-0.05] and the values of both series and [hi] the greatest
    of [1.05] and those values. *)
Lemma plot_panel_bounds (r : run_state) (i : nat) (ax ax' : Axes) :
  plot_panel r i ax = Ok ax' ->
  exists tr vl lo hi,
    series (train_metrics r) i = Ok tr
    /\ series (valid_metrics r) i = Ok vl
    /\ is_min lo ((-0.05)%Q :: tr ++ vl)
    /\ is_max hi (1.05%Q :: tr ++ vl)
    /\ ax_xlim ax' = Some ((-0.05)%Q, (inject_Z (n_epochs r) - 0.95)%Q)
    /\ ax_ylim ax' = Some ((lo - 0.05)%Q, (hi + 0.05)%Q).
Proof.
  unfold plot_panel. intros H.
  inv_bind H as tr_m Htr. inv_bind H as ax1 Hax1. inv_bind H as p Hp.
  destruct p as [ax2 vl_m].
  inv_bind H as t_tr Httr. inv_bind H as min_tr Hmin_tr.
  inv_bind H as t_vl Htvl. inv_bind H as min_vl Hmin_vl.
  inv_bind H as t_tr' Httr'. inv_bind H as max_tr Hmax_tr.
  inv_bind H as t_vl' Htvl'. inv_bind H as max_vl Hmax_vl.
  inv_bind H as name Hname. injection H as <-.
  rewrite Httr in Httr'. injection Httr' as <-.
  rewrite Htvl in Htvl'. injection Htvl' as <-.
  assert (Hvl : series (valid_metrics r) i = Ok t_vl).
  { unfold series. destruct (0 <? length (valid_metrics r))%nat eqn:Hlen.
    - inv_bind Hp as vl_m' Hvl'. inv_bind Hp as ax3 Hax3.
      injection Hp as <- <-. rewrite Hvl'. exact Htvl.
    - injection Hp as <- <-. apply Nat.ltb_ge in Hlen.
      destruct (valid_metrics r); [exact Htvl | simpl in Hlen; lia]. }
  exists t_tr, t_vl, (py_min3 (-0.05) min_tr min_vl), (py_max3 1.05 max_tr max_vl).
  split; [unfold series; rewrite Htr; exact Httr |].
  split; [exact Hvl |].
  split; [apply py_min3_is_min; now apply py_min_is_min |].
  split; [apply py_max3_is_max; now apply py_max_is_max |].
  split; reflexivity.
Qed.

Lemma mapM_enumerate_nth {B : Type} (f : nat -> Axes -> result B)
    (l : list Axes) :
  forall (s : nat) (l' : list B),
    mapM (fun ia => f (fst ia) (snd ia)) (enumerate_from s l) = Ok l' ->
    forall i b, nth_error l' i = Some b ->
                exists ax, nth_error l i = Some ax /\ f (s + i)%nat ax = Ok b.
Proof.
  induction l as [| ax l IH]; intros s l' H i b Hi; simpl in H.
  - injection H as <-. destruct i; discriminate.
  - inv_bind H as b0 Hb0. inv_bind H as bs Hbs. injection H as <-.
    destruct i as [| i]; simpl in Hi.
    + injection Hi as <-. exists ax. rewrite Nat.add_0_r. now split.
    + destruct (IH _ _ Hbs i b Hi) as (ax' & Hnth & Hf).
      exists ax'. split; [exact Hnth |]. now rewrite Nat.add_succ_r.
Qed.

(** Every panel of a figure that [plot] has drawn carries those bounds. *)
Lemma plot_bounds (self self' : TrainMetricsRecorder) (r : run_state) :
  run self = Some r ->
  plot self = Ok self' ->
  exists p,
    fig self' = Some p /\ graphs p = axes p
    /\ forall i ax', nth_error (axes p) i = Some ax' ->
         exists tr vl lo hi,
           series (train_metrics r) i = Ok tr
           /\ series (valid_metrics r) i = Ok vl
           /\ is_min lo ((-0.05)%Q :: tr ++ vl)
           /\ is_max hi (1.05%Q :: tr ++ vl)
           /\ ax_xlim ax' = Some ((-0.05)%Q, (inject_Z (n_epochs r) - 0.95)%Q)
           /\ ax_ylim ax' = Some ((lo - 0.05)%Q, (hi + 0.05)%Q).
Proof.
  intros Hr H. unfold plot in H. rewrite Hr in H. simpl in H.
  destruct (Nat.eqb (length (train_metrics r)) 0); [discriminate |].
  inv_bind H as u Hu. inv_bind H as p Hp. inv_bind H as axs Haxs.
  injection H as <-. eexists. split; [reflexivity |]. split; [reflexivity |].
  simpl. intros i ax' Hi.
  destruct (mapM_enumerate_nth (plot_panel r) _ _ _ Haxs i ax' Hi)
    as (ax & _ & Hpanel).
  eapply plot_panel_bounds. exact Hpanel.
Qed.

(** A run with a validation split: after one epoch the panel is drawn,
    with the bounds above. *)
Example plot_after_one_epoch :
  exists s p ax,
    plot state_after_one_epoch = Ok s
    /\ fig s = Some p /\ axes p = [ax]
    /\ ax_xlim ax = Some ((-0.05)%Q, (inject_Z 1 - 0.95)%Q)
    /\ ax_ylim ax = Some ((-0.05 - 0.05)%Q, (1.05 + 0.05)%Q).
Proof.
  eexists _, _, _. split; [vm_compute; reflexivity |].
  split; [reflexivity |]. split; [reflexivity |]. split; reflexivity.
Qed.

(** C7, at the input where the code departs from it: a run with a metric
    and no validation split.  After its first epoch the training history
    holds one value and the validation history is empty; [plot] then sets
    no bounds at all, it raises from [min] of the empty validation
    series. *)
Theorem plot_bounds_fail_without_validation :
  do_calls sample_format_time sample_state_no_val epoch_no_validation
  = Ok state_after_epoch_no_val
  /\ run state_after_epoch_no_val = Some run_after_epoch_no_val
  /\ train_metrics run_after_epoch_no_val = [[VFloat (3 # 4)]]
  /\ valid_metrics run_after_epoch_no_val = []
  /\ plot state_after_epoch_no_val
     = Raise (ValueError "min() arg is an empty sequence").
Proof.
  split; [vm_compute; reflexivity |].
  split; [reflexivity |]. split; [reflexivity |]. split; [reflexivity |].
  vm_compute. reflexivity.
Qed.

(** The same happens inside [on_epoch_end] when [show_graph] is set: the
    first epoch of such a run does not end normally. *)
Example epoch_end_with_graph_without_validation :
  do_calls sample_format_time
    (on_train_begin (fresh_recorder sample_learner_no_val None true false)
       [] [match_rate] 1)
    epoch_no_validation
  = Raise min_of_empty.
Proof. vm_compute. reflexivity. Qed.

(** A cap of [0], which [__init__] lets through, leaves the buffers empty,
    and [on_epoch_end] then fails in [torch.stack]. *)
Example zero_cap_epoch_end_raises :
  do_calls sample_format_time
    (on_train_begin (fresh_recorder sample_learner (Some 0) false false)
       [] [match_rate] 1)
    (epoch_with_metric 0)
  = Raise (RuntimeError "stack expects a non-empty TensorList").
Proof. vm_compute. reflexivity. Qed.

(** ** The states a run reaches

    The hypotheses of the theorems above on the state (a cap that is not
    negative, run attributes that exist, a figure with at least one
    subplot) hold in every state that a run reaches from [__init__]. *)

Lemma length_enumerate_from {A : Type} (l : list A) :
  forall s, length (enumerate_from s l) = length l.
Proof. induction l as [| a l IH]; intros s; simpl; [| rewrite IH]; reflexivity. Qed.

Lemma plot_fig_ok (self self' : TrainMetricsRecorder) :
  fig_ok self -> plot self = Ok self' -> fig_ok self'.
Proof.
  unfold plot, fig_ok. intros Hfig H. inv_bind H as r Hr.
  destruct (Nat.eqb (length (train_metrics r)) 0); [discriminate |].
  inv_bind H as u Hu. inv_bind H as p Hp. inv_bind H as axs Haxs.
  injection H as <-. simpl. apply mapM_length in Haxs.
  unfold enumerate in Haxs. rewrite length_enumerate_from in Haxs.
  assert (Hp' : axes p <> []).
  { destruct (fig self) as [p0 |].
    - injection Hp as <-. exact Hfig.
    - inv_bind Hp as t0 Ht0. inv_bind Hp as axs0 Haxs0. injection Hp as <-.
      simpl. unfold plt_subplots in Haxs0.
      destruct (length t0); [discriminate |]. injection Haxs0 as <-.
      discriminate. }
  intros ->. destruct (axes p); [easy | discriminate].
Qed.

Section Reachable.

Variable format_time : Q -> string.

Lemma on_epoch_end_fig_ok (self self' : TrainMetricsRecorder) (epoch : Z)
    (smooth_loss : Tensor) (metrics : list metric_fn)
    (last_metrics : list pyval) (now : Q) :
  fig_ok self ->
  on_epoch_end format_time self epoch smooth_loss metrics last_metrics now
  = Ok self' ->
  fig_ok self'.
Proof.
  intros Hfig H. unfold on_epoch_end in H.
  inv_bind H as r Hr. inv_bind H as stats0 Hstats0. inv_bind H as p Hp.
  destruct p as [self1 stats1].
  assert (H1 : fig_ok self1).
  { destruct (has_metrics r).
    - inv_bind Hp as tr_lm Htr. inv_bind Hp as stats2 Hstats2.
      injection Hp as <- <-. exact Hfig.
    - injection Hp as <- <-. exact Hfig. }
  destruct (negb (silent self1)).
  - inv_bind H as self2 Hfmt.
    assert (H2 : fig_ok self2).
    { unfold _format_stats in Hfmt. inv_bind Hfmt as r1 Hr1.
      inv_bind Hfmt as strs Hstrs. inv_bind Hfmt as e He.
      injection Hfmt as <-. exact H1. }
    inv_bind H as r2 Hr2. destruct (show_graph self2 && _).
    + eapply plot_fig_ok; eassumption.
    + injection H as <-. exact H2.
  - injection H as <-. exact H1.
Qed.

Lemma do_calls_fig_ok (cs : list call) :
  forall self self',
    fig_ok self -> do_calls format_time self cs = Ok self' -> fig_ok self'.
Proof.
  unfold do_calls.
  induction cs as [| c cs IH]; intros self self' Hfig H; simpl in H.
  - injection H as <-. exact Hfig.
  - inv_bind H as self1 Hc. apply (IH self1 self'); [| exact H].
    destruct c as [now | train nb t o | ep loss ms lm now |]; simpl in Hc.
    + injection Hc as <-. exact Hfig.
    + apply on_batch_end_keeps in Hc. destruct Hc as (_ & _ & Hf).
      unfold fig_ok in *. now rewrite Hf.
    + eapply on_epoch_end_fig_ok; eassumption.
    + eapply plot_fig_ok; eassumption.
Qed.

Lemma reachable_state_ok (learn : Learner) (cap : option Z) (sg sl : bool)
    (self0 self' : TrainMetricsRecorder) (pbar : PBar)
    (metrics : list metric_fn) (n_epochs : Z) (cs : list call) :
  __init__ learn cap sg sl = Ok self0 ->
  do_calls format_time (on_train_begin self0 pbar metrics n_epochs) cs = Ok self' ->
  cap_ok self' /\ fig_ok self' /\ exists r', run self' = Some r'.
Proof.
  intros Hinit Hrun.
  destruct (init_cap_nonneg _ _ _ _ _ Hinit) as (Hcap & _ & _ & Hfig & Hk).
  destruct (on_train_begin_run self0 pbar metrics n_epochs)
    as (r & Hr & _ & _ & _ & _ & _ & Hn & _ & Hf).
  destruct (do_calls_history format_time cs _ _ _ Hr Hrun)
    as ((_ & Hn' & _) & r' & Hr' & _).
  split; [unfold cap_ok; rewrite Hn', Hn, Hcap; exact Hk |].
  split; [| eauto].
  eapply do_calls_fig_ok; [| exact Hrun].
  unfold fig_ok. rewrite Hf, Hfig. exact I.
Qed.

End Reachable.

(** ** The theorems at the sample run *)

Lemma batch_buffer_length_witness :
  run sample_state = Some sample_run_state
  /\ cap_ok sample_state
  /\ exists self' e',
      on_batches (on_epoch_begin sample_state 0) true 0 five_batches = Ok self'
      /\ epoch_st self' = Some e'
      /\ Z.of_nat (length (y e')) = 2
      /\ Z.of_nat (length (out e')) = 2
      /\ forall validation_batches,
           on_batches self' false 0 validation_batches = Ok self'.
Proof.
  assert (Hcap : cap_ok sample_state) by (unfold cap_ok; simpl; lia).
  split; [reflexivity |]. split; [exact Hcap |].
  exact (batch_buffer_length sample_state sample_run_state 0 true five_batches
           eq_refl Hcap).
Defined.

Lemma history_length_witness :
  do_calls sample_format_time
    (on_train_begin (fresh_recorder sample_learner (Some 2) false false)
       [] [match_rate] 1)
    (epoch_with_metric 0)
  = Ok state_after_one_epoch
  /\ exists r',
      run state_after_one_epoch = Some r'
      /\ has_val r' = true
      /\ ([match_rate] <> [] ->
          length (train_metrics r') = 1%nat
          /\ (has_val r' = true -> length (valid_metrics r') = 1%nat))
      /\ ([match_rate] = [] -> train_metrics r' = [] /\ valid_metrics r' = [])
      /\ (has_val r' = true ->
          length (valid_metrics r') = length (train_metrics r')).
Proof.
  assert (H : do_calls sample_format_time
                (on_train_begin (fresh_recorder sample_learner (Some 2) false false)
                   [] [match_rate] 1)
                (epoch_with_metric 0)
              = Ok state_after_one_epoch) by (vm_compute; reflexivity).
  split; [exact H |].
  exact (history_length sample_format_time _ _ _ _ _ _ H).
Defined.



Lemma plot_no_records_witness :
  (run new_callback = None
   /\ run sample_state = Some sample_run_state
   /\ train_metrics sample_run_state = []
   /\ run state_after_one_epoch = Some run_after_one_epoch
   /\ train_metrics run_after_one_epoch <> [])
  /\ plot new_callback = Raise (AttributeError "train_metrics")
  /\ plot sample_state = Raise (ValueError "No records to plot.")
  /\ plot state_after_one_epoch <> Raise (ValueError "No records to plot.").
Proof.
  assert (Hne : train_metrics run_after_one_epoch <> []) by discriminate.
  split; [repeat split; try reflexivity; exact Hne |].
  split; [exact (proj1 (plot_no_records new_callback) eq_refl) |].
  split.
  - exact (proj1 (proj2 (plot_no_records sample_state) sample_run_state eq_refl)
             eq_refl).
  - exact (proj2 (proj2 (plot_no_records state_after_one_epoch)
                    run_after_one_epoch eq_refl) Hne).
Defined.

Lemma last_metrics_spec_witness :
  (run new_callback = None
   /\ run state_after_one_epoch = Some run_after_one_epoch
   /\ train_metrics run_after_one_epoch = [] ++ [[VFloat (3 # 4)]]
   /\ valid_metrics run_after_one_epoch = [] ++ [[VFloat 0.5]]
   /\ run sample_state = Some sample_run_state
   /\ train_metrics sample_run_state = []
   /\ valid_metrics sample_run_state = [])
  /\ last_train_metrics new_callback = Raise (AttributeError "train_metrics")
  /\ last_valid_metrics new_callback = Raise (AttributeError "valid_metrics")
  /\ last_train_metrics state_after_one_epoch = Ok [VFloat (3 # 4)]
  /\ last_valid_metrics state_after_one_epoch = Ok [VFloat 0.5]
  /\ last_train_metrics sample_state = Raise IndexError
  /\ last_valid_metrics sample_state = Raise IndexError.
Proof.
  split; [repeat split |].
  pose proof (proj1 (last_metrics_spec new_callback) eq_refl) as (Hn1 & Hn2).
  pose proof (proj2 (last_metrics_spec state_after_one_epoch)
                run_after_one_epoch eq_refl) as (Ht & _ & Hv & _).
  pose proof (proj2 (last_metrics_spec sample_state) sample_run_state eq_refl)
    as (_ & Ht0 & _ & Hv0).
  split; [exact Hn1 |]. split; [exact Hn2 |].
  split; [exact (Ht [] _ eq_refl) |].
  split; [exact (Hv [] _ eq_refl) |].
  split; [exact (Ht0 eq_refl) | exact (Hv0 eq_refl)].
Defined.

Lemma plot_without_validation_raises_witness :
  (run state_after_epoch_no_val = Some run_after_epoch_no_val
   /\ train_metrics run_after_epoch_no_val <> []
   /\ valid_metrics run_after_epoch_no_val = []
   /\ fig_ok state_after_epoch_no_val)
  /\ (exists e, plot state_after_epoch_no_val = Raise e
                /\ e <> ValueError "No records to plot.")
  /\ plot state_after_epoch_no_val
     = Raise (ValueError "min() arg is an empty sequence").
Proof.
  assert (Hne : train_metrics run_after_epoch_no_val <> []) by discriminate.
  assert (Hfig : fig_ok state_after_epoch_no_val) by exact I.
  assert (Hsc : forall met, In met (train_metrics run_after_epoch_no_val) ->
                  exists v x, nth_error met 0 = Some v /\ scalar_of v = Ok x).
  { intros met [<- | []]. eexists _, _. split; reflexivity. }
  split; [repeat split; try reflexivity; assumption |].
  pose proof (plot_without_validation_raises state_after_epoch_no_val
                run_after_epoch_no_val eq_refl Hne eq_refl Hfig) as (H1 & H2).
  split; [exact H1 | exact (H2 Hsc)].
Defined.

(** * Further properties of the callback *)

(** ** The steps of [_format_stats] and [on_epoch_end] *)

Section Steps.

Variable format_time : Q -> string.

Lemma format_stats_inv (self self' : TrainMetricsRecorder) (r : run_state)
    (stats : list pyval) (now : Q) :
  run self = Some r ->
  _format_stats format_time self stats now = Ok self' ->
  exists strs e,
    mapM (fun ns => format_stat (snd ns)) (combine (names r) stats) = Ok strs
    /\ epoch_st self = Some e
    /\ self' = set_run self
                 (set_pbar r (pbar_write (pbar r)
                                (strs ++ [format_time (now - start_epoch e)%Q]))).
Proof.
  intros Hr H. unfold _format_stats in H. rewrite Hr in H. cbn [attr bind] in H.
  inv_bind H as strs Hstrs. inv_bind H as e He.
  injection H as <-. exists strs, e. repeat split; try assumption.
  destruct (epoch_st self); [now injection He as -> | discriminate].
Qed.

(** The object and the stats row after the two bookkeeping steps of
    [on_epoch_end], before anything is printed or drawn. *)
Lemma on_epoch_end_inv (self self' : TrainMetricsRecorder) (r : run_state)
    (epoch : Z) (smooth_loss : Tensor) (metrics : list metric_fn)
    (last_metrics : list pyval) (now : Q) :
  run self = Some r ->
  on_epoch_end format_time self epoch smooth_loss metrics last_metrics now
  = Ok self' ->
  exists stats0 self1 r1 stats,
    (if has_val r
     then exists lm0, index last_metrics 0 = Ok lm0
                      /\ stats0 = [VInt epoch; VTensor smooth_loss; lm0]
     else stats0 = [VInt epoch; VTensor smooth_loss])
    /\ (if has_metrics r
        then exists tr_lm,
            eval_train_metrics self metrics = Ok tr_lm
            /\ r1 = (if has_val r
                     then set_valid_metrics
                            (set_train_metrics r (train_metrics r ++ [tr_lm]))
                            (valid_metrics r ++ [tl last_metrics])
                     else set_train_metrics r (train_metrics r ++ [tr_lm]))
            /\ add_metric_stats (has_val r) tr_lm (tl last_metrics)
                 (length metrics) stats0 = Ok stats
            /\ self1 = set_run self r1
        else r1 = r /\ stats = stats0 /\ self1 = self)
    /\ run self1 = Some r1
    /\ (if silent self
        then self' = self1
        else exists self2,
            _format_stats format_time self1 stats now = Ok self2
            /\ if show_graph self && (0 <? length (train_metrics r1))%nat
               then plot self2 = Ok self'
               else self' = self2).
Proof.
  intros Hr H. unfold on_epoch_end in H. rewrite Hr in H. cbn [attr bind] in H.
  inv_bind H as stats0 Hstats0. inv_bind H as p Hp. destruct p as [self1 stats].
  assert (H0 : if has_val r
               then exists lm0, index last_metrics 0 = Ok lm0
                                /\ stats0 = [VInt epoch; VTensor smooth_loss; lm0]
               else stats0 = [VInt epoch; VTensor smooth_loss]).
  { destruct (has_val r).
    - inv_bind Hstats0 as lm0 Hlm0. injection Hstats0 as <-. eauto.
    - now injection Hstats0 as <-. }
  clear Hstats0.
  assert (H1 : exists r1,
             (if has_metrics r
              then exists tr_lm,
                  eval_train_metrics self metrics = Ok tr_lm
                  /\ r1 = (if has_val r
                           then set_valid_metrics
                                  (set_train_metrics r (train_metrics r ++ [tr_lm]))
                                  (valid_metrics r ++ [tl last_metrics])
                           else set_train_metrics r (train_metrics r ++ [tr_lm]))
                  /\ add_metric_stats (has_val r) tr_lm (tl last_metrics)
                       (length metrics) stats0 = Ok stats
                  /\ self1 = set_run self r1
              else r1 = r /\ stats = stats0 /\ self1 = self)
             /\ run self1 = Some r1
             /\ silent self1 = silent self
             /\ show_graph self1 = show_graph self).
  { destruct (has_metrics r).
    - inv_bind Hp as tr_lm Htr.
      cbn [has_val valid_metrics set_train_metrics] in Hp.
      clear H0. destruct (has_val r) eqn:Hv;
        cbn [has_val set_valid_metrics set_train_metrics] in Hp;
        rewrite Hv in Hp;
        inv_bind Hp as stats2 Hstats2; injection Hp as <- <-;
        (eexists; split;
         [exists tr_lm; split; [exact Htr |]; split; [reflexivity |];
          split; [exact Hstats2 | reflexivity]
         | repeat split]).
    - injection Hp as <- <-. exists r. repeat split. exact Hr. }
  clear Hp. destruct H1 as (r1 & Hmid & Hr1 & Hs1 & Hg1).
  exists stats0, self1, r1, stats.
  split; [exact H0 |]. split; [exact Hmid |]. split; [exact Hr1 |].
  rewrite Hs1 in H. destruct (silent self); cbn [negb] in H.
  - now injection H as <-.
  - inv_bind H as self2 Hfmt. exists self2. split; [exact Hfmt |].
    destruct (format_stats_inv _ _ _ _ _ Hr1 Hfmt) as (strs & e & _ & _ & ->).
    cbn [run set_run attr bind show_graph train_metrics set_pbar] in H.
    rewrite Hg1 in H.
    destruct (show_graph self && _); [exact H | now injection H as <-].
Qed.

End Steps.

(** ** What a run keeps: configuration, header, one row per epoch *)

Section RunFrame.

Variable format_time : Q -> string.

Lemma on_epoch_end_frame (self self' : TrainMetricsRecorder) (r : run_state)
    (epoch : Z) (smooth_loss : Tensor) (metrics : list metric_fn)
    (last_metrics : list pyval) (now : Q) :
  run self = Some r ->
  on_epoch_end format_time self epoch smooth_loss metrics last_metrics now
  = Ok self' ->
  exists r',
    run self' = Some r'
    /\ names r' = names r /\ metrics_names r' = metrics_names r
    /\ n_epochs r' = n_epochs r
    /\ (if silent self
        then pbar r' = pbar r /\ fig self' = fig self
        else exists row, pbar r' = pbar r ++ [row]).
Proof.
  intros Hr H.
  destruct (on_epoch_end_inv _ _ _ _ _ _ _ _ _ Hr H)
    as (stats0 & self1 & r1 & stats & _ & Hmid & Hr1 & Hout).
  assert (Hf : names r1 = names r /\ metrics_names r1 = metrics_names r
               /\ n_epochs r1 = n_epochs r /\ pbar r1 = pbar r
               /\ fig self1 = fig self).
  { destruct (has_metrics r).
    - destruct Hmid as (tr_lm & _ & -> & _ & ->).
      destruct (has_val r); repeat split.
    - destruct Hmid as (-> & _ & ->). repeat split. }
  destruct Hf as (Hn & Hmn & Hne & Hp & Hfig).
  destruct (silent self).
  - subst self'. exists r1. repeat split; assumption.
  - destruct Hout as (self2 & Hfmt & Hplot).
    destruct (format_stats_inv _ _ _ _ _ _ Hr1 Hfmt) as (strs & e & _ & _ & Hs2).
    assert (Hrun : run self' = run self2).
    { destruct (show_graph self && _).
      - apply plot_keeps in Hplot. tauto.
      - now subst self'. }
    rewrite Hrun, Hs2. eexists. split; [reflexivity |].
    cbn [names metrics_names n_epochs pbar set_pbar]. repeat split; try assumption.
    eexists. unfold pbar_write. now rewrite Hp.
Qed.

Lemma do_call_frame (self self' : TrainMetricsRecorder) (r : run_state)
    (c : call) :
  run self = Some r ->
  do_call format_time self c = Ok self' ->
  same_config self self'
  /\ exists r',
      run self' = Some r'
      /\ names r' = names r /\ metrics_names r' = metrics_names r
      /\ n_epochs r' = n_epochs r
      /\ (exists rows, pbar r' = pbar r ++ rows
                       /\ length rows
                          = if silent self then 0%nat else epochs_ended [c])
      /\ (silent self = true -> is_plot c = false -> fig self' = fig self).
Proof.
  intros Hr H.
  assert (Hc : same_config self self').
  { destruct (do_call_history format_time _ _ _ _ Hr H) as (Hc & _). exact Hc. }
  split; [exact Hc |].
  assert (Hsame : forall c0,
             epochs_ended [c0] = 0%nat ->
             run self' = Some r ->
             (is_plot c0 = false -> fig self' = fig self) ->
             exists r',
               run self' = Some r'
               /\ names r' = names r /\ metrics_names r' = metrics_names r
               /\ n_epochs r' = n_epochs r
               /\ (exists rows, pbar r' = pbar r ++ rows
                                /\ length rows
                                   = if silent self then 0%nat else epochs_ended [c0])
               /\ (silent self = true -> is_plot c0 = false -> fig self' = fig self)).
  { intros c0 Hz Hrun Hfig. exists r.
    split; [exact Hrun |]. split; [reflexivity |]. split; [reflexivity |].
    split; [reflexivity |]. split.
    - exists []. rewrite app_nil_r, Hz. split; [reflexivity |].
      destruct (silent self); reflexivity.
    - intros _. exact Hfig. }
  destruct c as [now | train nb t o | ep loss ms lm now |]; simpl in H.
  - injection H as <-. apply Hsame; [reflexivity | exact Hr | reflexivity].
  - apply on_batch_end_keeps in H. destruct H as (_ & Hrun & Hfig).
    apply Hsame; [reflexivity | congruence | intros _; exact Hfig].
  - destruct (on_epoch_end_frame _ _ _ _ _ _ _ _ Hr H)
      as (r' & Hr' & Hn & Hmn & Hne & Hout).
    exists r'. split; [exact Hr' |]. split; [exact Hn |]. split; [exact Hmn |].
    split; [exact Hne |]. split.
    + destruct (silent self).
      * destruct Hout as (-> & _). exists []. now rewrite app_nil_r.
      * destruct Hout as (row & ->). exists [row]. split; reflexivity.
    + intros Hs _. rewrite Hs in Hout. tauto.
  - apply plot_keeps in H. destruct H as (_ & Hrun & _).
    apply Hsame; [reflexivity | congruence | discriminate].
Qed.

Lemma do_calls_frame (cs : list call) :
  forall (self self' : TrainMetricsRecorder) (r : run_state),
    run self = Some r ->
    do_calls format_time self cs = Ok self' ->
    same_config self self'
    /\ exists r',
        run self' = Some r'
        /\ names r' = names r /\ metrics_names r' = metrics_names r
        /\ n_epochs r' = n_epochs r
        /\ (exists rows, pbar r' = pbar r ++ rows
                         /\ length rows
                            = if silent self then 0%nat else epochs_ended cs)
        /\ (silent self = true -> forallb (fun c => negb (is_plot c)) cs = true ->
            fig self' = fig self).
Proof.
  unfold do_calls.
  induction cs as [| c cs IH]; intros self self' r Hr H; simpl in H.
  - injection H as <-. split; [unfold same_config; repeat split |].
    exists r. split; [exact Hr |]. split; [reflexivity |]. split; [reflexivity |].
    split; [reflexivity |]. split; [| reflexivity].
    exists []. rewrite app_nil_r. split; [reflexivity |].
    destruct (silent self); reflexivity.
  - inv_bind H as self1 Hc.
    destruct (do_call_frame _ _ _ _ Hr Hc)
      as (Hc1 & r1 & Hr1 & Hn1 & Hmn1 & Hne1 & (rows1 & Hp1 & Hl1) & Hf1).
    destruct (IH _ _ _ Hr1 H)
      as (Hc2 & r2 & Hr2 & Hn2 & Hmn2 & Hne2 & (rows2 & Hp2 & Hl2) & Hf2).
    assert (Hs : silent self1 = silent self) by (unfold same_config in Hc1; tauto).
    split; [unfold same_config in *; intuition congruence |].
    exists r2. split; [exact Hr2 |]. split; [congruence |]. split; [congruence |].
    split; [congruence |]. split.
    + exists (rows1 ++ rows2). rewrite Hp2, Hp1, app_assoc. split; [reflexivity |].
      rewrite length_app, Hl1, Hl2, Hs, (epochs_ended_cons c cs).
      destruct (silent self); reflexivity.
    + intros Hsil Hnp. simpl in Hnp. apply andb_true_iff in Hnp.
      destruct Hnp as (Hc0 & Hrest). apply negb_true_iff in Hc0.
      rewrite Hf2 by congruence. now apply Hf1.
Qed.

Lemma on_train_begin_header (self0 : TrainMetricsRecorder) (pbar0 : PBar)
    (metrics : list metric_fn) (n : Z) :
  exists r,
    run (on_train_begin self0 pbar0 metrics n) = Some r
    /\ names r
       = claimed_header (data_has_valid_ds (learn self0)) (map m_name metrics)
    /\ metrics_names r = map m_name metrics
    /\ pbar r = (if silent self0 then pbar0 else pbar0 ++ [names r])
    /\ silent (on_train_begin self0 pbar0 metrics n) = silent self0.
Proof.
  eexists. split; [reflexivity |].
  cbn [names metrics_names pbar silent set_run set_learn learn].
  rewrite add_metric_names_flat.
  assert (Hh : (if data_has_valid_ds (learn self0)
                then ["epoch"; "train_loss"] ++ ["valid_loss"]
                else ["epoch"; "train_loss"])
               ++ flat_map (metric_columns (data_has_valid_ds (learn self0)))
                    (map m_name metrics) ++ ["time"]
               = claimed_header (data_has_valid_ds (learn self0))
                   (map m_name metrics)).
  { unfold claimed_header. destruct (data_has_valid_ds (learn self0)); reflexivity. }
  rewrite <- app_assoc, Hh. repeat split.
  destruct (silent self0); reflexivity.
Qed.

(** X3.  The configuration given to [__init__] is what every later state of the
    run holds, and the learner's own recorder stays muted. *)
Theorem config_never_changes (learn0 : Learner) (cap : option Z) (sg sl : bool)
    (self0 self' : TrainMetricsRecorder) (pbar0 : PBar)
    (metrics : list metric_fn) (n : Z) (cs : list call) :
  __init__ learn0 cap sg sl = Ok self0 ->
  do_calls format_time (on_train_begin self0 pbar0 metrics n) cs = Ok self' ->
  n_batch self' = cap /\ show_graph self' = sg /\ silent self' = sl
  /\ learn self' = mkLearner (data_has_valid_ds learn0) true.
Proof.
  intros Hinit Hrun.
  assert (H0 : self0 = mkRecorder learn0 cap sg sl None None None).
  { unfold __init__ in Hinit. destruct (truthy cap).
    - inv_bind Hinit as u Hu. now injection Hinit as <-.
    - now injection Hinit as <-. }
  destruct (on_train_begin_run self0 pbar0 metrics n) as (r & Hr & _).
  destruct (do_calls_frame cs _ _ _ Hr Hrun) as ((Hl & Hn & Hg & Hs) & _).
  rewrite Hl, Hn, Hg, Hs. subst self0. repeat split.
Qed.

(** X4.  The header is written once and never changes; after it the progress
    bar gets exactly one row for each [on_epoch_end] that returns, and
    nothing at all when the callback is silent. *)
Theorem one_row_per_epoch (self0 self' : TrainMetricsRecorder) (pbar0 : PBar)
    (metrics : list metric_fn) (n : Z) (cs : list call) :
  do_calls format_time (on_train_begin self0 pbar0 metrics n) cs = Ok self' ->
  exists r' rows,
    run self' = Some r'
    /\ names r'
       = claimed_header (data_has_valid_ds (learn self0)) (map m_name metrics)
    /\ metrics_names r' = map m_name metrics
    /\ pbar r' = (if silent self0 then pbar0 else pbar0 ++ [names r']) ++ rows
    /\ length rows = if silent self0 then 0%nat else epochs_ended cs.
Proof.
  intros Hrun.
  destruct (on_train_begin_header self0 pbar0 metrics n)
    as (r & Hr & Hn & Hmn & Hp & Hs).
  destruct (do_calls_frame cs _ _ _ Hr Hrun)
    as (_ & r' & Hr' & Hn' & Hmn' & _ & (rows & Hp' & Hl) & _).
  exists r', rows. rewrite Hs in Hl.
  split; [exact Hr' |]. split; [congruence |]. split; [congruence |].
  split; [| exact Hl].
  rewrite Hp', Hp, Hn', Hn. destruct (silent self0); reflexivity.
Qed.

(** X6.  A silent callback prints and draws nothing, whatever [show_graph]
    says: along a run without explicit [plot] calls the progress bar and
    the figure stay as they were before [on_train_begin]. *)
Theorem silent_run_is_quiet (self0 self' : TrainMetricsRecorder) (pbar0 : PBar)
    (metrics : list metric_fn) (n : Z) (cs : list call) :
  silent self0 = true ->
  forallb (fun c => negb (is_plot c)) cs = true ->
  do_calls format_time (on_train_begin self0 pbar0 metrics n) cs = Ok self' ->
  exists r', run self' = Some r' /\ pbar r' = pbar0 /\ fig self' = fig self0.
Proof.
  intros Hsil Hnp Hrun.
  destruct (on_train_begin_header self0 pbar0 metrics n)
    as (r & Hr & _ & _ & Hp & Hs).
  destruct (do_calls_frame cs _ _ _ Hr Hrun)
    as (_ & r' & Hr' & _ & _ & _ & (rows & Hp' & Hl) & Hfig).
  rewrite Hs, Hsil in *. specialize (Hfig eq_refl Hnp).
  apply length_zero_iff_nil in Hl. subst rows. rewrite app_nil_r in Hp'.
  exists r'. split; [exact Hr' |]. split; [congruence |].
  rewrite Hfig. reflexivity.
Qed.

End RunFrame.

(** ** The row of stats against the header *)

Lemma skipn_nth_error {A : Type} (l : list A) :
  forall s a, nth_error l s = Some a -> skipn s l = a :: skipn (S s) l.
Proof.
  induction l as [| x l IH]; intros [| s] a H; simpl in *; try discriminate.
  - now injection H as ->.
  - now apply IH.
Qed.

Lemma add_metric_stats_content (has_val : bool) (tr_lm vl_lm : list pyval)
    (n : nat) (stats stats' : list pyval) :
  add_metric_stats has_val tr_lm vl_lm n stats = Ok stats' ->
  stats' = stats ++ metric_stats has_val (firstn n tr_lm) (firstn n vl_lm)
  /\ length stats' = (length stats + n * (if has_val then 2 else 1))%nat.
Proof.
  unfold add_metric_stats.
  assert (G : forall k s stats stats',
             foldM (fun stats i =>
                      a <- index tr_lm i ;;
                      let stats := stats ++ [a] in
                      if has_val
                      then b <- index vl_lm i ;; Ok (stats ++ [b])
                      else Ok stats) (seq s k) stats = Ok stats' ->
             stats' = stats ++ metric_stats has_val (firstn k (skipn s tr_lm))
                                 (firstn k (skipn s vl_lm))
             /\ length stats'
                = (length stats + k * (if has_val then 2 else 1))%nat).
  { induction k as [| k IH]; intros s st st' H; simpl in H.
    - injection H as <-. unfold metric_stats. simpl.
      destruct has_val; simpl; rewrite app_nil_r; split; lia || reflexivity.
    - inv_bind H as st1 Hst1. cbn beta in Hst1.
      inv_bind Hst1 as a Ha. unfold index in Ha.
      destruct (nth_error tr_lm s) as [a' |] eqn:Htr; [| discriminate].
      injection Ha as ->. rewrite (skipn_nth_error _ _ _ Htr).
      destruct has_val.
      + inv_bind Hst1 as b Hb. injection Hst1 as <-.
        unfold index in Hb.
        destruct (nth_error vl_lm s) as [b' |] eqn:Hvl; [| discriminate].
        injection Hb as ->. rewrite (skipn_nth_error _ _ _ Hvl).
        destruct (IH _ _ _ H) as (-> & Hlen). split.
        * unfold metric_stats. simpl. now rewrite <- !app_assoc.
        * rewrite Hlen, !length_app. simpl. lia.
      + injection Hst1 as <-.
        destruct (IH _ _ _ H) as (-> & Hlen). split.
        * unfold metric_stats. simpl. now rewrite <- !app_assoc.
        * rewrite Hlen, !length_app. simpl. lia. }
  intros H. apply (G n 0%nat stats stats'). exact H.
Qed.

Lemma length_claimed_header (has_val : bool) (ms : list string) :
  length (claimed_header has_val ms)
  = (2 + (if has_val then 1 else 0) + length ms * (if has_val then 2 else 1) + 1)%nat.
Proof.
  unfold claimed_header. rewrite !length_app, length_metric_columns.
  destruct has_val; simpl; lia.
Qed.

Section Row.

Variable format_time : Q -> string.

(** X5.  When [on_epoch_end] gets as many metric functions as [on_train_begin]
    did, the row it prints lines up with the header: the epoch, the
    training loss, the validation loss if there is a validation split,
    then for each metric its training value and (with a validation split)
    its validation value, then the time; as many columns as the header. *)
Theorem row_matches_header (self self' : TrainMetricsRecorder) (r : run_state)
    (epoch : Z) (smooth_loss : Tensor) (metrics : list metric_fn)
    (last_metrics : list pyval) (now : Q) :
  run self = Some r ->
  header_ok r ->
  silent self = false ->
  length metrics = length (metrics_names r) ->
  on_epoch_end format_time self epoch smooth_loss metrics last_metrics now
  = Ok self' ->
  exists r' e stats strs,
    run self' = Some r'
    /\ epoch_st self = Some e
    /\ stats = [VInt epoch; VTensor smooth_loss]
               ++ (if has_val r then firstn 1 last_metrics else [])
               ++ (if has_metrics r
                   then metric_stats (has_val r)
                          (last (train_metrics r') [])
                          (firstn (length metrics) (tl last_metrics))
                   else [])
    /\ Forall2 (fun stat s => format_stat stat = Ok s) stats strs
    /\ pbar r' = pbar r ++ [strs ++ [format_time (now - start_epoch e)%Q]]
    /\ length (strs ++ [format_time (now - start_epoch e)%Q]) = length (names r).
Proof.
  intros Hr (Hnames & Hhm) Hsil Hlen H.
  destruct (on_epoch_end_inv _ _ _ _ _ _ _ _ _ Hr H)
    as (stats0 & self1 & r1 & stats & H0 & Hmid & Hr1 & Hout).
  rewrite Hsil in Hout. destruct Hout as (self2 & Hfmt & Hplot).
  destruct (format_stats_inv _ _ _ _ _ _ Hr1 Hfmt) as (strs & e & Hstrs & He & Hs2).
  assert (Hrun : run self' = run self2).
  { destruct (show_graph self && _).
    - apply plot_keeps in Hplot. tauto.
    - now subst self'. }
  assert (Hstats0 : stats0 = [VInt epoch; VTensor smooth_loss]
                             ++ (if has_val r then firstn 1 last_metrics else [])
                    /\ length stats0 = (2 + if has_val r then 1 else 0)%nat).
  { destruct (has_val r).
    - destruct H0 as (lm0 & Hlm0 & ->). unfold index in Hlm0.
      destruct last_metrics as [| x rest]; [discriminate |].
      simpl in Hlm0. injection Hlm0 as ->. split; reflexivity.
    - subst stats0. split; reflexivity. }
  destruct Hstats0 as (Hs0 & Hl0).
  assert (Hshape :
            names r1 = names r /\ pbar r1 = pbar r /\ epoch_st self1 = epoch_st self
            /\ stats = [VInt epoch; VTensor smooth_loss]
                       ++ (if has_val r then firstn 1 last_metrics else [])
                       ++ (if has_metrics r
                           then metric_stats (has_val r)
                                  (last (train_metrics r1) [])
                                  (firstn (length metrics) (tl last_metrics))
                           else [])
            /\ S (length stats) = length (names r)).
  { destruct (has_metrics r) eqn:Hm.
    - destruct Hmid as (tr_lm & Heval & Hr1eq & Hadd & Hself1).
      apply add_metric_stats_content in Hadd. destruct Hadd as (Hst & Hl).
      unfold eval_train_metrics in Heval. apply mapM_length in Heval.
      assert (Hfirst : firstn (length metrics) tr_lm = tr_lm)
        by (rewrite <- Heval; apply firstn_all).
      rewrite Hfirst in Hst.
      assert (Hr1f : names r1 = names r /\ pbar r1 = pbar r
                     /\ last (train_metrics r1) [] = tr_lm).
      { subst r1. destruct (has_val r); simpl; repeat split; apply last_last. }
      destruct Hr1f as (A & B & C).
      split; [exact A |]. split; [exact B |].
      split; [subst self1; reflexivity |]. split.
      + rewrite C, Hst, Hs0, <- app_assoc. reflexivity.
      + rewrite Hl, Hl0, Hnames, length_claimed_header, <- Hlen.
        destruct (has_val r); lia.
    - destruct Hmid as (Hr1eq & Hst & Hself1). subst r1 stats self1.
      rewrite Hhm in Hm.
      destruct (metrics_names r) eqn:Hmn; [| discriminate]. simpl in Hlen.
      split; [reflexivity |]. split; [reflexivity |]. split; [reflexivity |].
      split; [now rewrite Hs0, app_nil_r |].
      rewrite Hl0, Hnames, length_claimed_header.
      destruct (has_val r); simpl; lia. }
  destruct Hshape as (Hn1 & Hp1 & He1 & Hstats & Hl).
  rewrite mapM_zip_names in Hstrs by (rewrite Hn1; lia).
  pose proof (mapM_length _ _ _ Hstrs) as Hls.
  apply mapM_Forall2 in Hstrs.
  assert (Htm : train_metrics r1 = train_metrics (set_pbar r1
                  (pbar_write (pbar r1) (strs ++ [format_time (now - start_epoch e)%Q]))))
    by reflexivity.
  rewrite Hrun, Hs2. eexists _, e, stats, strs.
  split; [reflexivity |]. split; [congruence |].
  split; [rewrite <- Htm; exact Hstats |]. split; [exact Hstrs |].
  split; [cbn [pbar set_pbar]; unfold pbar_write; now rewrite Hp1 |].
  rewrite length_app, Hls. simpl. lia.
Qed.

End Row.

Section HeaderReach.

Variable format_time : Q -> string.

Lemma reachable_header_ok (self0 self' : TrainMetricsRecorder) (pbar0 : PBar)
    (metrics : list metric_fn) (n : Z) (cs : list call) :
  do_calls format_time (on_train_begin self0 pbar0 metrics n) cs = Ok self' ->
  exists r',
    run self' = Some r' /\ header_ok r'
    /\ length (metrics_names r') = length metrics.
Proof.
  intros Hrun.
  destruct (on_train_begin_run self0 pbar0 metrics n)
    as (r & Hr & Hm & Hv & Hmn & _).
  destruct (on_train_begin_header self0 pbar0 metrics n)
    as (r0 & Hr0 & Hn & _).
  rewrite Hr in Hr0. injection Hr0 as <-.
  destruct (do_calls_frame format_time cs _ _ _ Hr Hrun)
    as (_ & r' & Hr' & Hn' & Hmn' & _).
  destruct (do_calls_history format_time cs _ _ _ Hr Hrun)
    as (_ & r'' & Hr'' & Hm' & Hv' & _).
  rewrite Hr' in Hr''. injection Hr'' as <-.
  exists r'. split; [exact Hr' |]. split.
  - unfold header_ok. rewrite Hn', Hmn', Hm', Hv', Hn, Hv, Hm, Hmn.
    split; [reflexivity |]. destruct metrics; reflexivity.
  - rewrite Hmn', Hmn. apply length_map.
Qed.

End HeaderReach.

(** ** What [on_epoch_end] never raises, and what the accessors then see *)

Lemma foldM_Raise {A S : Type} (body : S -> A -> result S) (l : list A) (e : exn) :
  forall s, foldM body l s = Raise e -> exists s' a, In a l /\ body s' a = Raise e.
Proof.
  induction l as [| a l IH]; intros s H; simpl in H; [discriminate |].
  apply bind_Raise in H. destruct H as [H | (s1 & _ & H)].
  - exists s, a. split; [now left | exact H].
  - destruct (IH _ H) as (s' & a' & Hin & Hb). exists s', a'. split; [now right | exact Hb].
Qed.

Lemma format_stat_raises_TypeError (v : pyval) (e : exn) :
  format_stat v = Raise e -> e = TypeError.
Proof.
  destruct v as [| n | x | t]; simpl; try discriminate.
  unfold format_tensor_6f. destruct (data t); [discriminate | now intros [= <-]].
Qed.

Tactic Notation "step_bind" ident(H) "as" ident(a) ident(Ha) :=
  apply bind_Raise in H; destruct H as [H | (a & Ha & H)].

Section EpochEndErrors.

Variable format_time : Q -> string.

Lemma format_stats_not_no_records (self : TrainMetricsRecorder)
    (stats : list pyval) (now : Q) :
  _format_stats format_time self stats now <> Raise no_records.
Proof.
  unfold _format_stats. intros H.
  step_bind H as r Hr; [destruct (run self); discriminate |].
  step_bind H as strs Hstrs.
  { apply mapM_Raise in H. destruct H as (ns & _ & H).
    apply format_stat_raises_TypeError in H. discriminate. }
  step_bind H as e He; [destruct (epoch_st self); discriminate | discriminate].
Qed.

(** X7.  [on_epoch_end] guards its call of [plot] with a non-empty training
    history, so the "No records to plot." error never comes out of it
    (unless a metric function raises that very error itself). *)
Theorem epoch_end_never_no_records (self : TrainMetricsRecorder) (epoch : Z)
    (smooth_loss : Tensor) (metrics : list metric_fn)
    (last_metrics : list pyval) (now : Q) :
  (forall m outs targs, In m metrics ->
                        m_call m outs targs <> Raise (ValueError "No records to plot.")) ->
  on_epoch_end format_time self epoch smooth_loss metrics last_metrics now
  <> Raise (ValueError "No records to plot.").
Proof.
  intros Hmetrics H. fold no_records in *. unfold on_epoch_end in H.
  step_bind H as r Hr; [destruct (run self); discriminate |].
  step_bind H as stats0 Hstats0.
  { destruct (has_val r); [| discriminate].
    step_bind H as lm0 Hlm0; [now apply index_not_no_records in H | discriminate]. }
  step_bind H as p Hp.
  { destruct (has_metrics r); [| discriminate].
    step_bind H as tr_lm Htr.
    { unfold eval_train_metrics in H. apply mapM_Raise in H.
      destruct H as (m & Hin & H).
      step_bind H as e He; [destruct (epoch_st self); discriminate |].
      step_bind H as outs Houts.
      { unfold torch_stack in H. destruct (out e) as [| t ts]; [discriminate |].
        destruct (forallb _ _); discriminate. }
      step_bind H as targs Htargs.
      { unfold torch_stack in H. destruct (y e) as [| t ts]; [discriminate |].
        destruct (forallb _ _); discriminate. }
      now apply (Hmetrics m outs targs Hin). }
    step_bind H as stats1 Hstats1; [| cbv beta zeta in H; discriminate H].
    unfold add_metric_stats in H. apply foldM_Raise in H.
    destruct H as (st & i & _ & H).
    step_bind H as a Ha; [now apply index_not_no_records in H |].
    cbv beta zeta in H.
    match type of H with
    | (if ?b then _ else _) = _ => destruct b; [| discriminate H]
    end.
    step_bind H as b Hb; [now apply index_not_no_records in H | discriminate]. }
  destruct p as [self1 stats].
  destruct (negb (silent self1)); [| discriminate].
  step_bind H as self2 Hfmt; [now apply format_stats_not_no_records in H |].
  step_bind H as r2 Hr2; [destruct (run self2); discriminate |].
  destruct (show_graph self2 && (0 <? length (train_metrics r2))%nat) eqn:Hg;
    [| discriminate].
  apply andb_true_iff in Hg. destruct Hg as (_ & Hlen).
  apply Nat.ltb_lt in Hlen.
  assert (Hrun : run self2 = Some r2).
  { destruct (run self2); [now injection Hr2 as -> | discriminate]. }
  revert H. apply (proj2 (plot_no_records_aux self2 r2 Hrun)).
  intros Hnil. rewrite Hnil in Hlen. simpl in Hlen. lia.
Qed.

(** X8.  After an [on_epoch_end] that returns in a run with metrics, the
    accessors give that epoch's values: [last_train_metrics] the values of
    the metric functions on the stacked buffers, one per function, and,
    with a validation split, [last_valid_metrics] the host's
    [last_metrics[1:]] as it was passed in. *)
Theorem accessors_after_epoch_end (self self' : TrainMetricsRecorder)
    (r : run_state) (epoch : Z) (smooth_loss : Tensor)
    (metrics : list metric_fn) (last_metrics : list pyval) (now : Q) :
  run self = Some r -> has_metrics r = true ->
  on_epoch_end format_time self epoch smooth_loss metrics last_metrics now
  = Ok self' ->
  exists tr_lm,
    eval_train_metrics self metrics = Ok tr_lm
    /\ length tr_lm = length metrics
    /\ last_train_metrics self' = Ok tr_lm
    /\ (has_val r = true -> last_valid_metrics self' = Ok (tl last_metrics))
    /\ (has_val r = false -> last_valid_metrics self' = last_valid_metrics self).
Proof.
  intros Hr Hm H.
  destruct (on_epoch_end_history _ _ _ _ _ _ _ _ _ Hr H)
    as (_ & r' & Hr' & _ & _ & Hstep).
  rewrite Hm in Hstep. destruct Hstep as (tr_lm & Heval & Htr & Hvl).
  exists tr_lm. split; [exact Heval |].
  split; [unfold eval_train_metrics in Heval; now apply mapM_length in Heval |].
  unfold last_train_metrics, last_valid_metrics. rewrite Hr', Hr. cbn [attr bind].
  rewrite Htr, Hvl. split; [apply index_last_snoc |]. split.
  - intros ->. apply index_last_snoc.
  - intros ->. reflexivity.
Qed.

(** X9.  In a run without a validation split, or without metric functions,
    the validation history never gets an entry: [last_valid_metrics] raises
    [IndexError] after any number of epochs. *)
Theorem last_valid_metrics_without_validation (self0 self' : TrainMetricsRecorder)
    (pbar0 : PBar) (metrics : list metric_fn) (n : Z) (cs : list call) :
  data_has_valid_ds (learn self0) = false \/ metrics = [] ->
  do_calls format_time (on_train_begin self0 pbar0 metrics n) cs = Ok self' ->
  last_valid_metrics self' = Raise IndexError.
Proof.
  intros Hno Hrun.
  destruct (on_train_begin_run self0 pbar0 metrics n)
    as (r & Hr & Hm & Hv & _ & _ & Hvl & _).
  destruct (do_calls_history format_time cs _ _ _ Hr Hrun)
    as (_ & r' & Hr' & _ & _ & _ & Hlen).
  rewrite Hvl, Hm, Hv in Hlen.
  assert (Hz : length (valid_metrics r') = 0%nat).
  { destruct Hno as [Hd | ->].
    - rewrite Hd, andb_false_r in Hlen. exact Hlen.
    - exact Hlen. }
  apply length_zero_iff_nil in Hz.
  unfold last_valid_metrics. rewrite Hr'. cbn [attr bind]. now rewrite Hz.
Qed.

End EpochEndErrors.

(** ** The figure: panels, idempotence, what a drawn panel shows *)

Lemma plot_panel_ignores_axes (r : run_state) (i : nat) (ax ax' : Axes) :
  plot_panel r i ax = plot_panel r i ax'.
Proof. reflexivity. Qed.

Lemma mapM_enumerate_same_length {B : Type} (f : nat -> Axes -> result B)
    (l : list Axes) :
  (forall i a a', f i a = f i a') ->
  forall (l' : list Axes) (s : nat),
    length l = length l' ->
    mapM (fun ia => f (fst ia) (snd ia)) (enumerate_from s l)
    = mapM (fun ia => f (fst ia) (snd ia)) (enumerate_from s l').
Proof.
  intros Hf. induction l as [| a l IH]; intros [| a' l'] s Hlen;
    simpl in *; try discriminate; [reflexivity |].
  rewrite (Hf s a a'), (IH l' (S s)) by lia. reflexivity.
Qed.

Lemma plot_inv (self self' : TrainMetricsRecorder) (r : run_state) :
  run self = Some r ->
  plot self = Ok self' ->
  exists p axs,
    train_metrics r <> []
    /\ (valid_metrics r <> [] ->
        exists t0 v0, index (train_metrics r) 0 = Ok t0
                      /\ index (valid_metrics r) 0 = Ok v0
                      /\ length t0 = length v0)
    /\ match fig self with
       | Some p0 => p = p0
       | None => exists t0, index (train_metrics r) 0 = Ok t0
                            /\ axes p = repeat new_axes (length t0)
                            /\ length t0 <> 0%nat
       end
    /\ mapM (fun ia => plot_panel r (fst ia) (snd ia)) (enumerate (axes p)) = Ok axs
    /\ self' = set_fig self (mkPlot axs axs).
Proof.
  intros Hr H. unfold plot in H. rewrite Hr in H. cbn [attr bind] in H.
  destruct (Nat.eqb (length (train_metrics r)) 0) eqn:Hlen; [discriminate |].
  inv_bind H as u Hu. inv_bind H as p Hp. inv_bind H as axs Haxs.
  injection H as <-. exists p, axs.
  split; [intros Hnil; rewrite Hnil in Hlen; discriminate |].
  split.
  { intros Hne. destruct (valid_metrics r) as [| v hist] eqn:Hv; [easy |].
    simpl in Hu. inv_bind Hu as t0 Ht0.
    unfold py_assert in Hu.
    destruct (Nat.eqb (length t0) (length v)) eqn:He; [| discriminate].
    apply Nat.eqb_eq in He. exists t0, v.
    split; [exact Ht0 |]. split; [reflexivity | exact He]. }
  split; [| split; [exact Haxs | reflexivity]].
  destruct (fig self) as [p0 |].
  - now injection Hp as <-.
  - inv_bind Hp as t0 Ht0. inv_bind Hp as axs0 Haxs0. injection Hp as <-.
    exists t0. split; [exact Ht0 |]. unfold plt_subplots in Haxs0.
    destruct (length t0) eqn:Hl; [discriminate |].
    injection Haxs0 as <-. split; [reflexivity | discriminate].
Qed.

(** X10.  Calling [plot] again without a new epoch changes nothing: every panel
    is cleared and drawn afresh from the same histories. *)
Theorem plot_idempotent (self self' : TrainMetricsRecorder) :
  plot self = Ok self' -> plot self' = Ok self'.
Proof.
  intros H.
  assert (Hr : exists r, run self = Some r).
  { unfold plot in H. destruct (run self) as [r |]; [eauto | discriminate]. }
  destruct Hr as (r & Hr).
  destruct (plot_inv _ _ _ Hr H) as (p & axs & Hne & Hassert & Hfig & Haxs & ->).
  unfold plot. cbn [run set_fig attr bind fig]. rewrite Hr. cbn [attr bind].
  destruct (Nat.eqb (length (train_metrics r)) 0) eqn:Hlen.
  { apply Nat.eqb_eq, length_zero_iff_nil in Hlen. contradiction. }
  assert (Hu : (if (0 <? length (valid_metrics r))%nat
                then t0 <- index (train_metrics r) 0 ;;
                     v0 <- index (valid_metrics r) 0 ;;
                     py_assert (Nat.eqb (length t0) (length v0))
                else Ok tt) = Ok tt).
  { destruct (valid_metrics r) as [| v hist] eqn:Hv; [reflexivity |].
    destruct Hassert as (t0 & v0 & -> & Hv0 & He); [discriminate |].
    cbn [bind]. rewrite Hv0. cbn [bind]. unfold py_assert.
    now rewrite He, Nat.eqb_refl. }
  rewrite Hu. cbn [bind axes].
  unfold enumerate in *.
  rewrite (mapM_enumerate_same_length (plot_panel r) axs
             (plot_panel_ignores_axes r) (axes p) 0).
  - rewrite Haxs. reflexivity.
  - apply mapM_length in Haxs. now rewrite length_enumerate_from in Haxs.
Qed.

(** X11.  The figure is made by the first [plot], with one panel for each value
    in the first entry of the training history; every later [plot] keeps
    that number of panels, and [on_train_begin] does not discard the
    figure. *)
Theorem panel_count_is_fixed (self self' : TrainMetricsRecorder) (r : run_state) :
  run self = Some r ->
  plot self = Ok self' ->
  exists p',
    fig self' = Some p' /\ graphs p' = axes p'
    /\ match fig self with
       | Some p => length (axes p') = length (axes p)
       | None => exists t0 hist, train_metrics r = t0 :: hist
                                 /\ length (axes p') = length t0
       end
    /\ forall pbar0 metrics n,
         fig (on_train_begin self' pbar0 metrics n) = Some p'.
Proof.
  intros Hr H.
  destruct (plot_inv _ _ _ Hr H) as (p & axs & Hne & _ & Hfig & Haxs & ->).
  apply mapM_length in Haxs. unfold enumerate in Haxs.
  rewrite length_enumerate_from in Haxs.
  eexists. split; [reflexivity |]. split; [reflexivity |]. split; [| reflexivity].
  cbn [axes]. destruct (fig self) as [p0 |].
  - now subst p0.
  - destruct Hfig as (t0 & Ht0 & Hax & _).
    destruct (train_metrics r) as [| t hist]; [easy |].
    injection Ht0 as ->. exists t0, hist. split; [reflexivity |].
    now rewrite Haxs, Hax, repeat_length.
Qed.

Lemma mapM_enumerate_each {B : Type} (f : nat -> Axes -> result B)
    (l : list Axes) :
  forall (s : nat) (l' : list B),
    mapM (fun ia => f (fst ia) (snd ia)) (enumerate_from s l) = Ok l' ->
    forall i, (i < length l)%nat -> exists ax b, f (s + i)%nat ax = Ok b.
Proof.
  induction l as [| ax l IH]; intros s l' H i Hi; simpl in *; [lia |].
  inv_bind H as b0 Hb0. inv_bind H as bs Hbs.
  destruct i as [| i].
  - exists ax, b0. now rewrite Nat.add_0_r.
  - destruct (IH _ _ Hbs i ltac:(lia)) as (ax' & b & Hf).
    exists ax', b. now rewrite Nat.add_succ_r.
Qed.

Lemma plot_panel_needs_column (r : run_state) (i : nat) (ax ax' : Axes) :
  plot_panel r i ax = Ok ax' ->
  forall met, In met (train_metrics r) -> (i < length met)%nat.
Proof.
  unfold plot_panel. intros H met Hin. inv_bind H as tr_m Htr.
  apply mapM_Forall2 in Htr. clear H.
  induction Htr as [| m v ms vs Hv _ IH]; [easy |].
  destruct Hin as [<- | Hin]; [| now apply IH].
  unfold index in Hv. destruct (nth_error m i) eqn:Hn; [| discriminate].
  apply nth_error_Some. congruence.
Qed.

(** X12.  A figure with more panels than an epoch has metric values (one made in
    an earlier run with more metric functions, which [on_train_begin]
    keeps) cannot be drawn: [plot] does not return. *)
Theorem plot_stale_figure_fails (self : TrainMetricsRecorder) (r : run_state)
    (p : plot_state) (met : list pyval) :
  run self = Some r ->
  fig self = Some p ->
  In met (train_metrics r) ->
  (length met < length (axes p))%nat ->
  exists e, plot self = Raise e.
Proof.
  intros Hr Hfig Hin Hlt.
  destruct (plot self) as [self' | e] eqn:H; [| eauto].
  destruct (plot_inv _ _ _ Hr H) as (p0 & axs & _ & _ & Hp & Haxs & _).
  rewrite Hfig in Hp. subst p0.
  destruct (mapM_enumerate_each (plot_panel r) _ _ _ Haxs (length met) Hlt)
    as (ax & b & Hpanel).
  apply (plot_panel_needs_column _ _ _ _ Hpanel met) in Hin. simpl in Hin. lia.
Qed.

Lemma plot_panel_inv (r : run_state) (i : nat) (ax ax' : Axes) :
  plot_panel r i ax = Ok ax' ->
  exists tr_m vl_m name,
    mapM (fun met => index met i) (train_metrics r) = Ok tr_m
    /\ mapM (fun met => index met i) (valid_metrics r) = Ok vl_m
    /\ valid_metrics r <> []
    /\ length vl_m = length tr_m
    /\ nth_error (metrics_names r) i = Some name
    /\ ax_lines ax' = [mkLine (range (length tr_m)) tr_m "Train";
                      mkLine (range (length tr_m)) vl_m "Validation"]
    /\ ax_ylabel ax' = Some name
    /\ ax_xlabel ax' = Some "Epochs"
    /\ ax_integer_ticks ax' = true
    /\ ax_legend ax' = Some "upper right".
Proof.
  unfold plot_panel. intros H.
  inv_bind H as tr_m Htr. inv_bind H as ax1 Hax1. inv_bind H as p Hp.
  destruct p as [ax2 vl_m].
  inv_bind H as t_tr Httr. inv_bind H as min_tr Hmin_tr.
  inv_bind H as t_vl Htvl. inv_bind H as min_vl Hmin_vl.
  inv_bind H as t_tr' Httr'. inv_bind H as max_tr Hmax_tr.
  inv_bind H as t_vl' Htvl'. inv_bind H as max_vl Hmax_vl.
  inv_bind H as name Hname. injection H as <-.
  unfold ax_plot in Hax1. rewrite length_range, Nat.eqb_refl in Hax1.
  injection Hax1 as <-.
  destruct (0 <? length (valid_metrics r))%nat eqn:Hlen.
  - inv_bind Hp as vl_m' Hvl'. inv_bind Hp as ax3 Hax3. injection Hp as <- <-.
    unfold ax_plot in Hax3. rewrite length_range in Hax3.
    destruct (Nat.eqb (length tr_m) (length vl_m')) eqn:He; [| discriminate].
    injection Hax3 as <-. apply Nat.eqb_eq in He.
    exists tr_m, vl_m', name.
    split; [exact Htr |]. split; [exact Hvl' |].
    split; [intros Hnil; rewrite Hnil in Hlen; discriminate |].
    split; [now symmetry |].
    split; [unfold index in Hname; destruct (nth_error (metrics_names r) i);
            [now injection Hname as -> | discriminate] |].
    repeat split.
  - injection Hp as <- <-. unfold Tensor_of_list in Htvl. simpl in Htvl.
    injection Htvl as <-. discriminate.
Qed.

(** X13.  [plot] returns only when both histories are filled in step: it needs a
    validation history, as long as the training history, whose entries
    hold as many values as the training entries. *)
Theorem plot_needs_both_histories (self self' : TrainMetricsRecorder)
    (r : run_state) :
  run self = Some r ->
  fig_ok self ->
  plot self = Ok self' ->
  train_metrics r <> [] /\ valid_metrics r <> []
  /\ length (valid_metrics r) = length (train_metrics r)
  /\ exists t0 v0 hist_t hist_v,
      train_metrics r = t0 :: hist_t /\ valid_metrics r = v0 :: hist_v
      /\ length t0 = length v0.
Proof.
  intros Hr Hok H.
  destruct (plot_inv _ _ _ Hr H) as (p & axs & Hne & Hassert & Hfig & Haxs & _).
  assert (Hp : axes p <> []).
  { unfold fig_ok in Hok. destruct (fig self) as [p0 |].
    - now subst p0.
    - destruct Hfig as (t0 & _ & -> & Hl). destruct (length t0); [easy | discriminate]. }
  destruct (axes p) as [| ax rest]; [easy |].
  unfold enumerate in Haxs. simpl in Haxs.
  inv_bind Haxs as ax' Hpanel. clear Haxs.
  destruct (plot_panel_inv _ _ _ _ Hpanel)
    as (tr_m & vl_m & name & Htr & Hvl & Hv & Hlen & _).
  apply mapM_length in Htr. apply mapM_length in Hvl.
  split; [exact Hne |]. split; [exact Hv |]. split; [congruence |].
  destruct (Hassert Hv) as (t0 & v0 & Ht0 & Hv0 & He).
  destruct (train_metrics r) as [| t hist_t]; [discriminate |].
  destruct (valid_metrics r) as [| v hist_v]; [discriminate |].
  injection Ht0 as ->. injection Hv0 as ->.
  exists t0, v0, hist_t, hist_v. repeat split. exact He.
Qed.

(** X14.  What a drawn panel shows: panel [i] holds the "Train" line and then
    the "Validation" line of metric [i], both over the epochs
    [0 .. e-1], with the metric's name on the y-axis, "Epochs" on the
    x-axis, integer ticks and the legend at the upper right. *)
Theorem drawn_panel_contents (self self' : TrainMetricsRecorder) (r : run_state) :
  run self = Some r ->
  plot self = Ok self' ->
  exists p,
    fig self' = Some p
    /\ forall i ax, nth_error (axes p) i = Some ax ->
         exists tr_m vl_m name,
           mapM (fun met => index met i) (train_metrics r) = Ok tr_m
           /\ mapM (fun met => index met i) (valid_metrics r) = Ok vl_m
           /\ nth_error (metrics_names r) i = Some name
           /\ ax_lines ax
              = [mkLine (range (length (train_metrics r))) tr_m "Train";
                 mkLine (range (length (train_metrics r))) vl_m "Validation"]
           /\ ax_ylabel ax = Some name
           /\ ax_xlabel ax = Some "Epochs"
           /\ ax_integer_ticks ax = true
           /\ ax_legend ax = Some "upper right".
Proof.
  intros Hr H.
  destruct (plot_inv _ _ _ Hr H) as (p & axs & _ & _ & _ & Haxs & ->).
  eexists. split; [reflexivity |]. cbn [axes]. intros i ax Hi.
  destruct (mapM_enumerate_nth (plot_panel r) _ _ _ Haxs i ax Hi)
    as (ax0 & _ & Hpanel).
  destruct (plot_panel_inv _ _ _ _ Hpanel)
    as (tr_m & vl_m & name & Htr & Hvl & _ & _ & Hname & Hlines & Hrest).
  exists tr_m, vl_m, name.
  split; [exact Htr |]. split; [exact Hvl |]. split; [exact Hname |].
  split; [| exact Hrest].
  rewrite Hlines. apply mapM_length in Htr. now rewrite Htr.
Qed.

(** ** The buffers of an epoch and what the metrics see *)

Lemma firstn_taken {A : Type} (cap : option Z) (l : list A) :
  firstn (Z.to_nat (taken true true cap 0 (length l))) l
  = match cap with
    | None => l
    | Some k => firstn (Z.to_nat k) l
    end.
Proof.
  unfold taken. simpl. destruct cap as [k |].
  - rewrite Z.sub_0_r. destruct (Z.le_gt_cases k (Z.of_nat (length l))).
    + f_equal. lia.
    + rewrite !firstn_all2 by lia. reflexivity.
  - rewrite Nat2Z.id. apply firstn_all.
Qed.

Lemma torch_stack_inv (ts : list Tensor) (t : Tensor) :
  torch_stack ts = Ok t ->
  exists t0 rest, ts = t0 :: rest /\ t = mkTensor (dev t0) (Dim (map data ts)).
Proof.
  unfold torch_stack. destruct ts as [| t0 rest]; [discriminate |].
  destruct (forallb _ rest); [| discriminate].
  intros [= <-]. eauto.
Qed.

Lemma buffers_contents_aux (self : TrainMetricsRecorder) (r : run_state)
    (now : Q) (batches : list (Tensor * Tensor)) :
  run self = Some r -> has_metrics r = true ->
  exists self' e',
    on_batches (on_epoch_begin self now) true 0 batches = Ok self'
    /\ epoch_st self' = Some e'
    /\ y e' = map (fun b => cpu (fst b)) (used_batches (n_batch self) batches)
    /\ out e' = map (fun b => cpu (snd b)) (used_batches (n_batch self) batches)
    /\ run self' = Some r.
Proof.
  intros Hr Hm.
  destruct (on_batches_contents true batches (on_epoch_begin self now) r
              (mkEpoch now [] []) 0 Hr eq_refl)
    as (self' & e' & Hrun & He' & Hy & Ho).
  destruct (on_batches_lengths true batches (on_epoch_begin self now) r
              (mkEpoch now [] []) 0 Hr eq_refl)
    as (self'' & e'' & Hrun' & Hr' & _).
  rewrite Hrun in Hrun'. injection Hrun' as <-.
  cbn [n_batch on_epoch_begin set_epoch y out app] in Hy, Ho.
  rewrite Hm, firstn_taken in Hy, Ho.
  exists self', e'. split; [exact Hrun |]. split; [exact He' |].
  unfold used_batches. split; [exact Hy |]. split; [exact Ho | exact Hr'].
Qed.

(** X1.  After [on_epoch_begin] and the training batches of an epoch, the two
    buffers hold the targets and the outputs of the batches that count
    (all of them, or the first [k] under a cap [k]), in order, each copied
    to the host; what earlier epochs accumulated is gone. *)
Theorem buffers_hold_host_copies (self : TrainMetricsRecorder) (r : run_state)
    (now : Q) (batches : list (Tensor * Tensor)) :
  run self = Some r -> has_metrics r = true ->
  exists self' e',
    on_batches (on_epoch_begin self now) true 0 batches = Ok self'
    /\ epoch_st self' = Some e'
    /\ y e' = map (fun b => cpu (fst b)) (used_batches (n_batch self) batches)
    /\ out e' = map (fun b => cpu (snd b)) (used_batches (n_batch self) batches)
    /\ Forall on_host (y e') /\ Forall on_host (out e').
Proof.
  intros Hr Hm.
  destruct (buffers_contents_aux self r now batches Hr Hm)
    as (self' & e' & Hrun & He' & Hy & Ho & _).
  exists self', e'. split; [exact Hrun |]. split; [exact He' |].
  split; [exact Hy |]. split; [exact Ho |]. split.
  - rewrite Hy. apply Forall_forall. intros t Hin.
    apply in_map_iff in Hin. destruct Hin as (b & <- & _). reflexivity.
  - rewrite Ho. apply Forall_forall. intros t Hin.
    apply in_map_iff in Hin. destruct Hin as (b & <- & _). reflexivity.
Qed.

Section EpochInputs.

Variable format_time : Q -> string.

(** X2.  A whole epoch: after [on_epoch_begin], the training batches, the
    validation batches and an [on_epoch_end] that returns,
    [last_train_metrics] gives for each metric function its value on the
    host tensor stacking the outputs of the batches that count and the one
    stacking their targets. *)
Theorem epoch_metric_inputs (self self1 self2 self3 : TrainMetricsRecorder)
    (r : run_state) (t0 now : Q) (batches validation_batches : list (Tensor * Tensor))
    (epoch : Z) (smooth_loss : Tensor) (metrics : list metric_fn)
    (last_metrics : list pyval) :
  run self = Some r -> has_metrics r = true ->
  on_batches (on_epoch_begin self t0) true 0 batches = Ok self1 ->
  on_batches self1 false 0 validation_batches = Ok self2 ->
  on_epoch_end format_time self2 epoch smooth_loss metrics last_metrics now
  = Ok self3 ->
  exists tr_lm,
    last_train_metrics self3 = Ok tr_lm
    /\ Forall2
         (fun m_fn v =>
            m_call m_fn
              (mkTensor CPU
                 (Dim (map (fun b => data (snd b)) (used_batches (n_batch self) batches))))
              (mkTensor CPU
                 (Dim (map (fun b => data (fst b)) (used_batches (n_batch self) batches))))
            = Ok v)
         metrics tr_lm
    /\ (metrics <> [] -> used_batches (n_batch self) batches <> []).
Proof.
  intros Hr Hm H1 H2 H3.
  destruct (buffers_contents_aux self r t0 batches Hr Hm)
    as (s1 & e1 & Hs1 & He1 & Hy & Ho & Hr1).
  rewrite H1 in Hs1. injection Hs1 as <-.
  rewrite validation_batches_skipped in H2. injection H2 as <-.
  destruct (on_epoch_end_history _ _ _ _ _ _ _ _ _ Hr1 H3)
    as (_ & r3 & Hr3 & _ & _ & Hstep).
  rewrite Hm in Hstep. destruct Hstep as (tr_lm & Heval & Htr & _).
  exists tr_lm.
  split; [unfold last_train_metrics; rewrite Hr3; cbn [attr bind];
          rewrite Htr; apply index_last_snoc |].
  destruct metrics as [| m ms].
  { injection Heval as <-. split; [constructor | easy]. }
  destruct (torch_stack (out e1)) as [outs | ex] eqn:Houts.
  2:{ unfold eval_train_metrics in Heval. cbn [mapM] in Heval.
      rewrite He1 in Heval. cbn [attr bind] in Heval.
      rewrite Houts in Heval. discriminate. }
  destruct (torch_stack (y e1)) as [targs | ex] eqn:Htargs.
  2:{ unfold eval_train_metrics in Heval. cbn [mapM] in Heval.
      rewrite He1 in Heval. cbn [attr bind] in Heval.
      rewrite Houts in Heval. cbn [bind] in Heval.
      rewrite Htargs in Heval. discriminate. }
  rewrite (eval_train_metrics_stacked _ _ _ _ _ He1 Houts Htargs) in Heval.
  apply mapM_Forall2 in Heval.
  destruct (torch_stack_inv _ _ Houts) as (o0 & orest & Hoeq & ->).
  destruct (torch_stack_inv _ _ Htargs) as (y0 & yrest & Hyeq & ->).
  assert (Hdo : dev o0 = CPU).
  { rewrite Ho in Hoeq. destruct (used_batches (n_batch self) batches);
      [discriminate | now injection Hoeq as <- _]. }
  assert (Hdy : dev y0 = CPU).
  { rewrite Hy in Hyeq. destruct (used_batches (n_batch self) batches);
      [discriminate | now injection Hyeq as <- _]. }
  rewrite Hdo, Hdy, Ho, Hy, !map_map in Heval. cbn [data cpu] in Heval.
  split; [exact Heval |].
  intros _ Hnil. rewrite Ho, Hnil in Hoeq. discriminate.
Qed.

End EpochInputs.

(** ** Use before [on_train_begin], and rows longer than the header *)

Lemma mapM_zip_firstn {A B C : Type} (f : B -> result C) (names : list A) :
  forall stats : list B,
    mapM (fun ns => f (snd ns)) (combine names stats)
    = mapM f (firstn (length names) stats).
Proof.
  induction names as [| n names IH]; intros [| s stats]; simpl; try reflexivity.
  now rewrite IH.
Qed.

Section Lifecycle.

Variable format_time : Q -> string.

(** X16.  Before [on_train_begin] has run, the callback has no run attributes:
    [plot], both accessors and [on_epoch_end] raise [AttributeError] (so
    [plot] on a fresh callback does not give the "no records" error), a
    training batch below the cap raises it too, and a validation batch is
    ignored. *)
Theorem before_train_begin (self : TrainMetricsRecorder) :
  run self = None ->
  plot self = Raise (AttributeError "train_metrics")
  /\ last_train_metrics self = Raise (AttributeError "train_metrics")
  /\ last_valid_metrics self = Raise (AttributeError "valid_metrics")
  /\ (forall epoch smooth_loss metrics last_metrics now,
         on_epoch_end format_time self epoch smooth_loss metrics last_metrics now
         = Raise (AttributeError "has_val"))
  /\ (forall num_batch t o,
         match n_batch self with Some k => num_batch < k | None => True end ->
         on_batch_end self true num_batch t o = Raise (AttributeError "has_metrics"))
  /\ (forall num_batch t o, on_batch_end self false num_batch t o = Ok self).
Proof.
  intros Hr. unfold plot, last_train_metrics, last_valid_metrics, on_epoch_end,
    on_batch_end. rewrite Hr. cbn [attr bind andb].
  repeat split.
  intros nb t o Hcap. destruct (n_batch self) as [k |]; [| reflexivity].
  destruct (Z.gtb_spec k nb); [reflexivity | lia].
Qed.

(** X17.  [_format_stats] pairs the stats with the column names: stats beyond the
    number of names are dropped, the elapsed time is appended after those
    that remain, and the only way it fails once an epoch has begun is a
    [TypeError] for a tensor with a dimension among the stats it
    formats. *)
Theorem format_stats_truncates_to_header (self : TrainMetricsRecorder)
    (r : run_state) (e : epoch_state) (stats : list pyval) (now : Q) :
  run self = Some r -> epoch_st self = Some e ->
  (forall self',
      _format_stats format_time self stats now = Ok self' ->
      exists strs,
        Forall2 (fun stat s => format_stat stat = Ok s)
          (firstn (length (names r)) stats) strs
        /\ self' = set_run self
                     (set_pbar r
                        (pbar r ++ [strs ++ [format_time (now - start_epoch e)%Q]]))
        /\ length (strs ++ [format_time (now - start_epoch e)%Q])
           = S (Nat.min (length (names r)) (length stats)))
  /\ (forall ex,
         _format_stats format_time self stats now = Raise ex ->
         ex = TypeError
         /\ exists t l, In (VTensor t) (firstn (length (names r)) stats)
                        /\ data t = Dim l)
  /\ ((forall t, In (VTensor t) (firstn (length (names r)) stats) ->
                 exists x, data t = Scalar x) ->
      exists self', _format_stats format_time self stats now = Ok self').
Proof.
  intros Hr He.
  assert (Hraise : forall ex,
             _format_stats format_time self stats now = Raise ex ->
             ex = TypeError
             /\ exists t l, In (VTensor t) (firstn (length (names r)) stats)
                            /\ data t = Dim l).
  { intros ex H. unfold _format_stats in H. rewrite Hr, He in H.
    cbn [attr bind] in H. rewrite mapM_zip_firstn in H.
    step_bind H as strs Hstrs; [| discriminate].
    apply mapM_Raise in H. destruct H as (v & Hin & Hv).
    destruct v as [| n | x | t]; simpl in Hv; try discriminate.
    unfold format_tensor_6f in Hv. destruct (data t) as [x | l] eqn:Hd;
      [discriminate |].
    injection Hv as <-. split; [reflexivity |]. exists t, l. now split. }
  split; [| split; [exact Hraise |]].
  - intros self' H.
    destruct (format_stats_inv _ _ _ _ _ _ Hr H) as (strs & e0 & Hstrs & He0 & ->).
    rewrite He in He0. injection He0 as <-.
    rewrite mapM_zip_firstn in Hstrs.
    pose proof (mapM_length _ _ _ Hstrs) as Hlen.
    apply mapM_Forall2 in Hstrs. exists strs.
    split; [exact Hstrs |]. split; [reflexivity |].
    rewrite length_app, Hlen, length_firstn. simpl. lia.
  - intros Hscalars.
    destruct (_format_stats format_time self stats now) as [self' | ex] eqn:H;
      [eauto |].
    destruct (Hraise ex eq_refl) as (_ & t & l & Hin & Hd).
    destruct (Hscalars t Hin) as (x & Hx). congruence.
Qed.

End Lifecycle.

(** ** A new run, a run without metrics, too few validation values *)

Lemma foldM_Ok_each {A S : Type} (body : S -> A -> result S) (l : list A) :
  forall s s', foldM body l s = Ok s' ->
               forall a, In a l -> exists st st', body st a = Ok st'.
Proof.
  induction l as [| x l IH]; intros s s' H a Hin; simpl in *; [easy |].
  inv_bind H as s1 Hs1. destruct Hin as [<- | Hin]; [eauto |].
  eapply IH; eassumption.
Qed.

Lemma add_metric_stats_short_validation (tr_lm vl_lm : list pyval) (n : nat)
    (stats : list pyval) :
  (length vl_lm < n)%nat ->
  add_metric_stats true tr_lm vl_lm n stats = Raise IndexError.
Proof.
  intros Hlt. destruct (add_metric_stats true tr_lm vl_lm n stats) as [st | e] eqn:H.
  - unfold add_metric_stats in H.
    destruct (foldM_Ok_each _ _ _ _ H (length vl_lm)) as (st0 & st1 & Hb).
    { apply in_seq. lia. }
    cbv beta zeta in Hb. inv_bind Hb as a Ha. inv_bind Hb as b Hb'.
    unfold index in Hb'. destruct (nth_error vl_lm (length vl_lm)) eqn:Hn;
      [| discriminate].
    assert (Hlt' : (length vl_lm < length vl_lm)%nat)
      by (apply nth_error_Some; congruence).
    lia.
  - unfold add_metric_stats in H. apply foldM_Raise in H.
    destruct H as (st0 & i & _ & H). cbv beta zeta in H.
    f_equal.
    apply bind_Raise in H. destruct H as [H | (a & _ & H)].
    + unfold index in H. destruct (nth_error tr_lm i); [discriminate |].
      now injection H as <-.
    + apply bind_Raise in H. destruct H as [H | (b & _ & H)]; [| discriminate].
      unfold index in H. destruct (nth_error vl_lm i); [discriminate |].
      now injection H as <-.
Qed.

Section EpochEndEdges.

Variable format_time : Q -> string.

(** X19.  Whether metrics are evaluated is decided by [on_train_begin]: in a run
    that began without metric functions, [on_epoch_end] evaluates none of
    the functions it is given and does not touch the buffers; its result
    is the same for every list of metric functions. *)
Theorem no_metrics_no_evaluation (self : TrainMetricsRecorder) (r : run_state)
    (epoch : Z) (smooth_loss : Tensor) (metrics metrics' : list metric_fn)
    (last_metrics : list pyval) (now : Q) :
  run self = Some r -> has_metrics r = false ->
  on_epoch_end format_time self epoch smooth_loss metrics last_metrics now
  = on_epoch_end format_time self epoch smooth_loss metrics' last_metrics now
  /\ forall self',
      on_epoch_end format_time self epoch smooth_loss metrics last_metrics now
      = Ok self' ->
      epoch_st self' = epoch_st self
      /\ exists r', run self' = Some r'
                    /\ train_metrics r' = train_metrics r
                    /\ valid_metrics r' = valid_metrics r.
Proof.
  intros Hr Hm. split.
  - unfold on_epoch_end. rewrite Hr. cbn [attr bind]. rewrite Hm. reflexivity.
  - intros self' H.
    destruct (on_epoch_end_inv _ _ _ _ _ _ _ _ _ Hr H)
      as (stats0 & self1 & r1 & stats & _ & Hmid & Hr1 & Hout).
    rewrite Hm in Hmid. destruct Hmid as (-> & -> & ->).
    destruct (silent self).
    + subst self'. split; [reflexivity |]. exists r. repeat split. exact Hr.
    + destruct Hout as (self2 & Hfmt & Hplot).
      destruct (format_stats_inv _ _ _ _ _ _ Hr Hfmt) as (strs & e & _ & _ & Hs2).
      assert (Hk : run self' = run self2 /\ epoch_st self' = epoch_st self2).
      { destruct (show_graph self && _).
        - apply plot_keeps in Hplot. tauto.
        - subst self'. split; reflexivity. }
      destruct Hk as (-> & ->). rewrite Hs2. split; [reflexivity |].
      eexists. split; [reflexivity |]. split; reflexivity.
Qed.

(** X20.  With a validation split, [on_epoch_end] takes the validation loss and
    one validation value for each metric function from [last_metrics]:
    when the host passes fewer than that, it raises [IndexError] (once the
    metric functions have been evaluated). *)
Theorem epoch_end_needs_validation_values (self : TrainMetricsRecorder)
    (r : run_state) (epoch : Z) (smooth_loss : Tensor)
    (metrics : list metric_fn) (last_metrics tr_lm : list pyval) (now : Q) :
  run self = Some r -> has_val r = true -> has_metrics r = true ->
  eval_train_metrics self metrics = Ok tr_lm ->
  (length last_metrics <= length metrics)%nat ->
  on_epoch_end format_time self epoch smooth_loss metrics last_metrics now
  = Raise IndexError.
Proof.
  intros Hr Hv Hm Heval Hlen. unfold on_epoch_end.
  rewrite Hr. cbn [attr bind]. rewrite Hv.
  destruct last_metrics as [| lm0 vl]; [reflexivity |].
  simpl in Hlen. unfold index at 1. cbn [nth_error bind]. rewrite Hm, Heval.
  cbn [bind has_val set_train_metrics set_valid_metrics valid_metrics tl].
  rewrite ?Hv. cbn [has_val set_valid_metrics set_train_metrics]. rewrite ?Hv.
  rewrite add_metric_stats_short_validation by lia. reflexivity.
Qed.

End EpochEndEdges.

(** ** A new run starts afresh *)

Section NewRun.

Variable format_time : Q -> string.

Lemma batch_ends_return (bs : list call) :
  forall (self : TrainMetricsRecorder) (r : run_state) (e : epoch_state),
    run self = Some r -> epoch_st self = Some e ->
    forallb is_batch_end bs = true ->
    exists self', do_calls format_time self bs = Ok self'.
Proof.
  unfold do_calls.
  induction bs as [| c bs IH]; intros self r e Hr He Hall; simpl.
  - eauto.
  - simpl in Hall. apply andb_true_iff in Hall. destruct Hall as [Hc Hall].
    destruct c as [| train s t o | |]; try discriminate. cbn [do_call].
    destruct (on_batch_end_step self r e train s t o Hr He)
      as (self1 & e1 & -> & Hr1 & _ & He1 & _).
    cbn [bind]. exact (IH self1 r e1 Hr1 He1 Hall).
Qed.

(** X18.  [on_train_begin] starts a run afresh whatever the object held,
    and it stays so until an epoch of the new run ends: after any
    returning calls of the new run among which there is no [on_epoch_end],
    both histories are empty, [plot] raises its "no records" error and
    both accessors raise [IndexError], and the learner's own recorder is
    muted.  Such calls do return: [on_epoch_begin] followed by any number
    of [on_batch_end].  The per-epoch buffers are left as they were. *)
Theorem train_begin_starts_afresh (self : TrainMetricsRecorder)
    (pbar0 : PBar) (metrics : list metric_fn) (n : Z) :
  (forall cs self',
      epochs_ended cs = 0%nat ->
      do_calls format_time (on_train_begin self pbar0 metrics n) cs = Ok self' ->
      (exists r',
          run self' = Some r' /\ train_metrics r' = [] /\ valid_metrics r' = [])
      /\ plot self' = Raise (ValueError "No records to plot.")
      /\ last_train_metrics self' = Raise IndexError
      /\ last_valid_metrics self' = Raise IndexError
      /\ recorder_silent (learn self') = true)
  /\ (forall now bs,
        forallb is_batch_end bs = true ->
        epochs_ended (OnEpochBegin now :: bs) = 0%nat
        /\ exists self',
             do_calls format_time (on_train_begin self pbar0 metrics n)
               (OnEpochBegin now :: bs) = Ok self')
  /\ epoch_st (on_train_begin self pbar0 metrics n) = epoch_st self.
Proof.
  destruct (on_train_begin_run self pbar0 metrics n)
    as (r & Hr & _ & _ & _ & Ht & Hv & _ & Hepoch & _).
  split; [| split; [| exact Hepoch]].
  - intros cs self' Hnone Hrun.
    destruct (do_calls_history format_time cs _ _ _ Hr Hrun)
      as ((Hl & _) & r' & Hr' & _ & _ & Hlt & Hlv).
    rewrite Ht, Hv, Hnone in *.
    assert (Ht' : train_metrics r' = []).
    { apply length_zero_iff_nil. destruct (has_metrics r); simpl in Hlt; lia. }
    assert (Hv' : valid_metrics r' = []).
    { apply length_zero_iff_nil.
      destruct (has_metrics r && has_val r); simpl in Hlv; lia. }
    split; [exists r'; repeat split; assumption |].
    unfold plot, last_train_metrics, last_valid_metrics.
    rewrite Hr'. cbn [attr bind]. rewrite Ht', Hv'.
    split; [reflexivity |]. split; [reflexivity |]. split; [reflexivity |].
    rewrite Hl. reflexivity.
  - intros now bs Hall. split.
    + unfold epochs_ended. cbn [filter]. clear - Hall.
      induction bs as [| c bs IH]; [reflexivity |].
      simpl in Hall. apply andb_true_iff in Hall. destruct Hall as [Hc Hall].
      destruct c; try discriminate. cbn [filter]. exact (IH Hall).
    + unfold do_calls. cbn [foldM do_call bind].
      apply (batch_ends_return bs _ r (mkEpoch now [] [])); auto.
Qed.

End NewRun.

(** ** Well-formed states *)

Section WellFormed.

Variable format_time : Q -> string.

(** X21.  Every state a run reaches from [__init__] and [on_train_begin]
    is well formed: the cap is not negative, the run attributes exist, and
    the figure, once made, has at least one panel. *)
Theorem run_states_are_well_formed (learn0 : Learner) (cap : option Z)
    (sg sl : bool) (self0 self' : TrainMetricsRecorder) (pbar0 : PBar)
    (metrics : list metric_fn) (n : Z) (cs : list call) :
  __init__ learn0 cap sg sl = Ok self0 ->
  do_calls format_time (on_train_begin self0 pbar0 metrics n) cs = Ok self' ->
  cap_ok self' /\ fig_ok self' /\ exists r', run self' = Some r'.
Proof. apply reachable_state_ok. Qed.

End WellFormed.

(** ** The further properties at the sample runs *)

Lemma sample_run_returns :
  do_calls sample_format_time
    (on_train_begin (fresh_recorder sample_learner (Some 2) false false)
       [] [match_rate] 1)
    (epoch_with_metric 0)
  = Ok state_after_one_epoch.
Proof. vm_compute. reflexivity. Qed.

Lemma sample_epoch_end_returns :
  on_epoch_end sample_format_time state_before_epoch_end
    0 loss_a [match_rate] [VFloat 0.61; VFloat 0.5] 75
  = Ok state_after_one_epoch.
Proof. vm_compute. reflexivity. Qed.

Lemma sample_plot_returns : plot state_after_one_epoch = Ok state_after_plot.
Proof. vm_compute. reflexivity. Qed.

Lemma config_never_changes_witness :
  (__init__ sample_learner (Some 2) false false
   = Ok (fresh_recorder sample_learner (Some 2) false false)
   /\ do_calls sample_format_time
        (on_train_begin (fresh_recorder sample_learner (Some 2) false false)
           [] [match_rate] 1)
        (epoch_with_metric 0)
      = Ok state_after_one_epoch)
  /\ n_batch state_after_one_epoch = Some 2
  /\ show_graph state_after_one_epoch = false
  /\ silent state_after_one_epoch = false
  /\ learn state_after_one_epoch = mkLearner true true.
Proof.
  split; [split; [reflexivity | exact sample_run_returns] |].
  exact (config_never_changes sample_format_time sample_learner (Some 2) false false
           _ _ [] [match_rate] 1 (epoch_with_metric 0) eq_refl sample_run_returns).
Defined.

Lemma one_row_per_epoch_witness :
  do_calls sample_format_time
    (on_train_begin (fresh_recorder sample_learner (Some 2) false false)
       [] [match_rate] 1)
    (epoch_with_metric 0)
  = Ok state_after_one_epoch
  /\ exists r' rows,
      run state_after_one_epoch = Some r'
      /\ pbar r' = ([] ++ [names r']) ++ rows
      /\ length rows = 1%nat.
Proof.
  split; [exact sample_run_returns |].
  destruct (one_row_per_epoch sample_format_time _ _ _ _ _ _ sample_run_returns)
    as (r' & rows & Hr & _ & _ & Hp & Hl).
  exists r', rows. split; [exact Hr |]. split; [exact Hp | exact Hl].
Defined.

Lemma silent_run_is_quiet_witness :
  (silent (fresh_recorder sample_learner (Some 2) true true) = true
   /\ forallb (fun c => negb (is_plot c)) (epoch_with_metric 0) = true
   /\ do_calls sample_format_time
        (on_train_begin (fresh_recorder sample_learner (Some 2) true true)
           [] [match_rate] 1)
        (epoch_with_metric 0)
      = Ok quiet_state_after_one_epoch)
  /\ exists r',
      run quiet_state_after_one_epoch = Some r' /\ pbar r' = []
      /\ fig quiet_state_after_one_epoch = None.
Proof.
  assert (H : do_calls sample_format_time
                (on_train_begin (fresh_recorder sample_learner (Some 2) true true)
                   [] [match_rate] 1)
                (epoch_with_metric 0)
              = Ok quiet_state_after_one_epoch) by (vm_compute; reflexivity).
  split; [split; [reflexivity | split; [reflexivity | exact H]] |].
  exact (silent_run_is_quiet sample_format_time
           (fresh_recorder sample_learner (Some 2) true true) _ [] [match_rate] 1
           (epoch_with_metric 0) eq_refl eq_refl H).
Defined.

Lemma sample_header_ok : header_ok sample_run_state.
Proof. split; reflexivity. Qed.

Lemma row_matches_header_witness :
  (run state_before_epoch_end = Some sample_run_state
   /\ header_ok sample_run_state
   /\ silent state_before_epoch_end = false
   /\ length [match_rate] = length (metrics_names sample_run_state)
   /\ on_epoch_end sample_format_time state_before_epoch_end
        0 loss_a [match_rate] [VFloat 0.61; VFloat 0.5] 75
      = Ok state_after_one_epoch)
  /\ exists r' row,
      run state_after_one_epoch = Some r'
      /\ pbar r' = pbar sample_run_state ++ [row]
      /\ length row = length (names sample_run_state).
Proof.
  split; [repeat split; try reflexivity; exact sample_epoch_end_returns |].
  destruct (row_matches_header sample_format_time state_before_epoch_end
              state_after_one_epoch sample_run_state 0 loss_a [match_rate] [VFloat 0.61; VFloat 0.5] 75
              eq_refl sample_header_ok eq_refl eq_refl sample_epoch_end_returns)
    as (r' & e & stats & strs & Hr & _ & _ & _ & Hp & Hl).
  exists r', (strs ++ [sample_format_time (75 - start_epoch e)%Q]).
  split; [exact Hr |]. split; [exact Hp | exact Hl].
Defined.

Lemma match_rate_never_no_records (m : metric_fn) (outs targs : Tensor) :
  In m [match_rate] ->
  m_call m outs targs <> Raise (ValueError "No records to plot.").
Proof.
  intros [<- | []]. simpl. destruct (_ && _); discriminate.
Qed.

Lemma epoch_end_never_no_records_witness :
  (forall m outs targs, In m [match_rate] ->
                        m_call m outs targs <> Raise (ValueError "No records to plot."))
  /\ on_epoch_end sample_format_time state_before_epoch_end
       0 loss_a [match_rate] [VFloat 0.61; VFloat 0.5] 75
     <> Raise (ValueError "No records to plot.").
Proof.
  split; [exact match_rate_never_no_records |].
  exact (epoch_end_never_no_records sample_format_time state_before_epoch_end
           0 loss_a [match_rate] [VFloat 0.61; VFloat 0.5] 75
           match_rate_never_no_records).
Defined.

Lemma accessors_after_epoch_end_witness :
  (run state_before_epoch_end = Some sample_run_state
   /\ has_metrics sample_run_state = true
   /\ on_epoch_end sample_format_time state_before_epoch_end
        0 loss_a [match_rate] [VFloat 0.61; VFloat 0.5] 75
      = Ok state_after_one_epoch)
  /\ exists tr_lm,
      last_train_metrics state_after_one_epoch = Ok tr_lm
      /\ length tr_lm = 1%nat
      /\ last_valid_metrics state_after_one_epoch = Ok [VFloat 0.5].
Proof.
  split; [repeat split; try reflexivity; exact sample_epoch_end_returns |].
  destruct (accessors_after_epoch_end sample_format_time state_before_epoch_end
              state_after_one_epoch sample_run_state 0 loss_a [match_rate] [VFloat 0.61; VFloat 0.5] 75
              eq_refl eq_refl sample_epoch_end_returns)
    as (tr_lm & _ & Hl & Ht & Hv & _).
  exists tr_lm. split; [exact Ht |]. split; [exact Hl | exact (Hv eq_refl)].
Defined.

Lemma last_valid_metrics_without_validation_witness :
  ((data_has_valid_ds (learn (fresh_recorder sample_learner_no_val None false false))
    = false \/ [match_rate] = [])
   /\ do_calls sample_format_time
        (on_train_begin (fresh_recorder sample_learner_no_val None false false)
           [] [match_rate] 1)
        epoch_no_validation
      = Ok state_after_epoch_no_val)
  /\ last_valid_metrics state_after_epoch_no_val = Raise IndexError.
Proof.
  assert (H : do_calls sample_format_time
                (on_train_begin (fresh_recorder sample_learner_no_val None false false)
                   [] [match_rate] 1)
                epoch_no_validation
              = Ok state_after_epoch_no_val) by (vm_compute; reflexivity).
  split; [split; [left; reflexivity | exact H] |].
  exact (last_valid_metrics_without_validation sample_format_time
           (fresh_recorder sample_learner_no_val None false false) _ []
           [match_rate] 1 epoch_no_validation (or_introl eq_refl) H).
Defined.

Lemma plot_idempotent_witness :
  plot state_after_one_epoch = Ok state_after_plot
  /\ plot state_after_plot = Ok state_after_plot.
Proof.
  split; [exact sample_plot_returns |].
  exact (plot_idempotent _ _ sample_plot_returns).
Defined.

Lemma panel_count_is_fixed_witness :
  (run state_after_one_epoch = Some run_after_one_epoch
   /\ plot state_after_one_epoch = Ok state_after_plot)
  /\ exists p',
      fig state_after_plot = Some p' /\ graphs p' = axes p'
      /\ length (axes p') = 1%nat.
Proof.
  split; [split; [reflexivity | exact sample_plot_returns] |].
  destruct (panel_count_is_fixed state_after_one_epoch state_after_plot
              run_after_one_epoch eq_refl sample_plot_returns)
    as (p' & Hf & Hg & Hn & _).
  exists p'. split; [exact Hf |]. split; [exact Hg |].
  simpl in Hn. destruct Hn as (t0 & hist & Heq & ->).
  injection Heq as <- _. reflexivity.
Defined.

Lemma plot_stale_figure_fails_witness :
  (run state_with_old_figure = Some run_with_old_figure
   /\ fig state_with_old_figure = Some old_figure
   /\ In [VFloat 0.8] (train_metrics run_with_old_figure)
   /\ (length [VFloat 0.8] < length (axes old_figure))%nat)
  /\ exists e, plot state_with_old_figure = Raise e.
Proof.
  assert (Hin : In [VFloat 0.8] (train_metrics run_with_old_figure))
    by (left; reflexivity).
  assert (Hlt : (length [VFloat 0.8] < length (axes old_figure))%nat)
    by (simpl; lia).
  split; [repeat split; try reflexivity; assumption |].
  exact (plot_stale_figure_fails state_with_old_figure run_with_old_figure
           old_figure [VFloat 0.8] eq_refl eq_refl Hin Hlt).
Defined.

Lemma plot_needs_both_histories_witness :
  (run state_after_one_epoch = Some run_after_one_epoch
   /\ fig_ok state_after_one_epoch
   /\ plot state_after_one_epoch = Ok state_after_plot)
  /\ train_metrics run_after_one_epoch <> []
  /\ valid_metrics run_after_one_epoch <> []
  /\ length (valid_metrics run_after_one_epoch)
     = length (train_metrics run_after_one_epoch).
Proof.
  split; [split; [reflexivity | split; [exact I | exact sample_plot_returns]] |].
  destruct (plot_needs_both_histories state_after_one_epoch state_after_plot
              run_after_one_epoch eq_refl I sample_plot_returns) as (Ht & Hv & Hl & _).
  split; [exact Ht |]. split; [exact Hv | exact Hl].
Defined.

Lemma drawn_panel_contents_witness :
  (run state_after_one_epoch = Some run_after_one_epoch
   /\ plot state_after_one_epoch = Ok state_after_plot)
  /\ exists p,
      fig state_after_plot = Some p
      /\ forall i ax, nth_error (axes p) i = Some ax ->
           ax_xlabel ax = Some "Epochs" /\ ax_legend ax = Some "upper right"
           /\ length (ax_lines ax) = 2%nat.
Proof.
  split; [split; [reflexivity | exact sample_plot_returns] |].
  destruct (drawn_panel_contents state_after_one_epoch state_after_plot
              run_after_one_epoch eq_refl sample_plot_returns)
    as (p & Hf & Hp).
  exists p. split; [exact Hf |]. intros i ax Hi.
  destruct (Hp i ax Hi) as (tr_m & vl_m & name & _ & _ & _ & Hl & _ & Hx & _ & Hg).
  split; [exact Hx |]. split; [exact Hg |]. now rewrite Hl.
Defined.

Lemma buffers_hold_host_copies_witness :
  (run sample_state = Some sample_run_state
   /\ has_metrics sample_run_state = true)
  /\ exists self' e',
      on_batches (on_epoch_begin sample_state 0) true 0 five_batches = Ok self'
      /\ epoch_st self' = Some e'
      /\ y e' = [cpu labels_a; cpu labels_b]
      /\ out e' = [cpu preds_a; cpu preds_b].
Proof.
  split; [split; reflexivity |].
  destruct (buffers_hold_host_copies sample_state sample_run_state 0 five_batches
              eq_refl eq_refl) as (self' & e' & H & He & Hy & Ho & _).
  exists self', e'. split; [exact H |]. split; [exact He |].
  split; [exact Hy | exact Ho].
Defined.

Lemma epoch_metric_inputs_witness :
  (run sample_state = Some sample_run_state
   /\ has_metrics sample_run_state = true
   /\ on_batches (on_epoch_begin sample_state 0) true 0 five_batches
      = Ok state_before_epoch_end
   /\ on_batches state_before_epoch_end false 0 [(labels_b, preds_b)]
      = Ok state_before_epoch_end
   /\ on_epoch_end sample_format_time state_before_epoch_end
        0 loss_a [match_rate] [VFloat 0.61; VFloat 0.5] 75
      = Ok state_after_one_epoch)
  /\ exists tr_lm,
      last_train_metrics state_after_one_epoch = Ok tr_lm
      /\ Forall2 (fun m_fn v => m_call m_fn sample_outs sample_targs = Ok v)
           [match_rate] tr_lm.
Proof.
  assert (H1 : on_batches (on_epoch_begin sample_state 0) true 0 five_batches
               = Ok state_before_epoch_end) by (vm_compute; reflexivity).
  assert (H2 : on_batches state_before_epoch_end false 0 [(labels_b, preds_b)]
               = Ok state_before_epoch_end) by reflexivity.
  split; [repeat split;
          first [exact H1 | exact H2 | exact sample_epoch_end_returns
                | reflexivity] |].
  destruct (epoch_metric_inputs sample_format_time sample_state
              state_before_epoch_end state_before_epoch_end state_after_one_epoch
              sample_run_state 0 75 five_batches [(labels_b, preds_b)]
              0 loss_a [match_rate] [VFloat 0.61; VFloat 0.5]
              eq_refl eq_refl H1 H2 sample_epoch_end_returns)
    as (tr_lm & Ht & Hall & _).
  exists tr_lm. split; [exact Ht | exact Hall].
Defined.

Lemma before_train_begin_witness :
  run (fresh_recorder sample_learner (Some 2) false false) = None
  /\ plot (fresh_recorder sample_learner (Some 2) false false)
     = Raise (AttributeError "train_metrics")
  /\ last_train_metrics (fresh_recorder sample_learner (Some 2) false false)
     = Raise (AttributeError "train_metrics").
Proof.
  split; [reflexivity |].
  destruct (before_train_begin sample_format_time
              (fresh_recorder sample_learner (Some 2) false false) eq_refl)
    as (Hp & Ht & _).
  split; [exact Hp | exact Ht].
Defined.

Lemma format_stats_truncates_to_header_witness :
  (run state_after_one_epoch = Some run_after_one_epoch
   /\ epoch_st state_after_one_epoch = Some sample_epoch_state)
  /\ exists self',
      _format_stats sample_format_time state_after_one_epoch
        [VInt 1; VNone; VFloat 0.5; VInt 2; VInt 3; VInt 4; VInt 5; VInt 6] 75
      = Ok self'.
Proof.
  split; [split; reflexivity |].
  apply (proj2 (proj2 (format_stats_truncates_to_header sample_format_time
                         state_after_one_epoch run_after_one_epoch
                         sample_epoch_state
                         [VInt 1; VNone; VFloat 0.5; VInt 2; VInt 3; VInt 4;
                          VInt 5; VInt 6] 75 eq_refl eq_refl))).
  intros t Hin. simpl in Hin.
  repeat (destruct Hin as [Hin | Hin]; [discriminate |]). destruct Hin.
Defined.

Lemma no_metrics_no_evaluation_witness :
  (run (on_epoch_begin (on_train_begin
          (fresh_recorder sample_learner None false false) [] [] 1) 0)
   = Some (run_of (on_train_begin
                     (fresh_recorder sample_learner None false false) [] [] 1))
   /\ has_metrics (run_of (on_train_begin
                             (fresh_recorder sample_learner None false false)
                             [] [] 1)) = false)
  /\ on_epoch_end sample_format_time
       (on_epoch_begin (on_train_begin
          (fresh_recorder sample_learner None false false) [] [] 1) 0)
       0 loss_a [match_rate] [VFloat 0.5] 1
     = on_epoch_end sample_format_time
         (on_epoch_begin (on_train_begin
            (fresh_recorder sample_learner None false false) [] [] 1) 0)
         0 loss_a [] [VFloat 0.5] 1.
Proof.
  split; [split; reflexivity |].
  exact (proj1 (no_metrics_no_evaluation sample_format_time
                  (on_epoch_begin (on_train_begin
                     (fresh_recorder sample_learner None false false) [] [] 1) 0)
                  _ 0 loss_a [match_rate] [] [VFloat 0.5] 1 eq_refl eq_refl)).
Defined.

Lemma epoch_end_needs_validation_values_witness :
  (run state_before_epoch_end = Some sample_run_state
   /\ has_val sample_run_state = true
   /\ has_metrics sample_run_state = true
   /\ eval_train_metrics state_before_epoch_end [match_rate] = Ok [VFloat (3 # 4)]
   /\ (length [VFloat 0.61] <= length [match_rate])%nat)
  /\ on_epoch_end sample_format_time state_before_epoch_end
       0 loss_a [match_rate] [VFloat 0.61] 75
     = Raise IndexError.
Proof.
  assert (He : eval_train_metrics state_before_epoch_end [match_rate]
               = Ok [VFloat (3 # 4)]) by (vm_compute; reflexivity).
  assert (Hl : (length [VFloat 0.61] <= length [match_rate])%nat) by (simpl; lia).
  split; [repeat split; first [exact He | exact Hl | reflexivity] |].
  exact (epoch_end_needs_validation_values sample_format_time
           state_before_epoch_end sample_run_state 0 loss_a [match_rate]
           [VFloat 0.61] [VFloat (3 # 4)] 75 eq_refl eq_refl eq_refl He Hl).
Defined.

Lemma run_states_are_well_formed_witness :
  (__init__ sample_learner (Some 2) false false
   = Ok (fresh_recorder sample_learner (Some 2) false false)
   /\ do_calls sample_format_time
        (on_train_begin (fresh_recorder sample_learner (Some 2) false false)
           [] [match_rate] 1)
        (epoch_with_metric 0 ++ [Plot])
      = Ok state_after_plot)
  /\ cap_ok state_after_plot /\ fig_ok state_after_plot
  /\ exists r', run state_after_plot = Some r'.
Proof.
  assert (H : do_calls sample_format_time
                (on_train_begin (fresh_recorder sample_learner (Some 2) false false)
                   [] [match_rate] 1)
                (epoch_with_metric 0 ++ [Plot])
              = Ok state_after_plot) by (vm_compute; reflexivity).
  split; [split; [reflexivity | exact H] |].
  exact (run_states_are_well_formed sample_format_time sample_learner (Some 2)
           false false
           (fresh_recorder sample_learner (Some 2) false false) state_after_plot
           [] [match_rate] 1 (epoch_with_metric 0 ++ [Plot]) eq_refl H).
Defined.

Lemma train_begin_starts_afresh_witness :
  (epochs_ended [OnEpochBegin 0; OnBatchEnd true 0 labels_a preds_a] = 0%nat
   /\ do_calls sample_format_time
        (on_train_begin state_after_plot [] [match_rate] 1)
        [OnEpochBegin 0; OnBatchEnd true 0 labels_a preds_a]
      = Ok (after_calls (on_train_begin state_after_plot [] [match_rate] 1)
              [OnEpochBegin 0; OnBatchEnd true 0 labels_a preds_a]))
  /\ plot (after_calls (on_train_begin state_after_plot [] [match_rate] 1)
             [OnEpochBegin 0; OnBatchEnd true 0 labels_a preds_a])
     = Raise (ValueError "No records to plot.")
  /\ last_train_metrics
       (after_calls (on_train_begin state_after_plot [] [match_rate] 1)
          [OnEpochBegin 0; OnBatchEnd true 0 labels_a preds_a])
     = Raise IndexError
  /\ plot state_after_plot = Ok state_after_plot.
Proof.
  assert (H : do_calls sample_format_time
                (on_train_begin state_after_plot [] [match_rate] 1)
                [OnEpochBegin 0; OnBatchEnd true 0 labels_a preds_a]
              = Ok (after_calls (on_train_begin state_after_plot [] [match_rate] 1)
                      [OnEpochBegin 0; OnBatchEnd true 0 labels_a preds_a]))
    by (vm_compute; reflexivity).
  split; [split; [reflexivity | exact H] |].
  destruct (proj1 (train_begin_starts_afresh sample_format_time state_after_plot
                     [] [match_rate] 1)
              [OnEpochBegin 0; OnBatchEnd true 0 labels_a preds_a] _
              eq_refl H) as (_ & Hp & Ht & _).
  split; [exact Hp |]. split; [exact Ht |]. vm_compute. reflexivity.
Defined.
